(** * slack_qa_summary: the Lambda handler of [backend/lambda/lambda_function.py]

    A shallow embedding of the handler and of its three helper functions,
    together with the fragment of Python they rely on: dynamically typed
    values, truthiness, subscripting, [dict.get], f-string interpolation,
    [json.dumps], exceptions with [try]/[except]/[raise], and the calls to the
    Slack and Bedrock clients, which are recorded in a trace of events. *)

From Stdlib Require Import List ZArith NArith String Ascii Bool Lia.
From Stdlib Require Import DecimalString.
Import ListNotations.

Local Open Scope list_scope.

(** ** Python strings

    A Python [str] is a sequence of Unicode code points.  String literals of
    the source are written here as Rocq strings, whose bytes are the UTF-8
    encoding of the text, and read back into code points by [u]. *)

Definition pystr := list N.

Definition cont (a : ascii) : N := N_of_ascii a mod 64.

Fixpoint u (s : string) : pystr :=
  match s with
  | EmptyString => []
  | String a s1 =>
      let b0 := N_of_ascii a in
      if (b0 <? 128)%N then b0 :: u s1
      else if (b0 <? 224)%N then
        match s1 with
        | String a1 s2 => ((b0 mod 32) * 64 + cont a1)%N :: u s2
        | _ => [65533%N]
        end
      else if (b0 <? 240)%N then
        match s1 with
        | String a1 (String a2 s3) =>
            ((b0 mod 16) * 4096 + cont a1 * 64 + cont a2)%N :: u s3
        | _ => [65533%N]
        end
      else
        match s1 with
        | String a1 (String a2 (String a3 s4)) =>
            ((b0 mod 8) * 262144 + cont a1 * 4096 + cont a2 * 64 + cont a3)%N
              :: u s4
        | _ => [65533%N]
        end
  end.

(** Code points that the source writes as escapes. *)
Definition LF : N := 10.
Definition DQUOTE : N := 34.
Definition SQUOTE : N := 39.
Definition BACKSLASH : N := 92.

Fixpoint pystr_eqb (a b : pystr) : bool :=
  match a, b with
  | [], [] => true
  | x :: a', y :: b' => (x =? y)%N && pystr_eqb a' b'
  | _, _ => false
  end.

(** [startswith s p] is Python's [s.startswith(p)]. *)
Fixpoint startswith (s p : pystr) : bool :=
  match p, s with
  | [], _ => true
  | y :: p', x :: s' => (x =? y)%N && startswith s' p'
  | _ :: _, [] => false
  end.

(** [contains s p] is Python's [p in s]. *)
Fixpoint contains (s p : pystr) : bool :=
  startswith s p ||
  match s with
  | [] => false
  | _ :: s' => contains s' p
  end.

(** The propositional counterparts. *)
Definition begins_with (s p : pystr) : Prop := exists rest, s = p ++ rest.
Definition substring_of (p s : pystr) : Prop :=
  exists before after, s = before ++ p ++ after.

(** ** Python values

    The values that reach the handler: JSON-like data, the bytes and the
    streaming body of a Bedrock response, and the [SlackResponse] object that
    wraps the decoded body of a Slack Web API call.  A [dict] keeps its
    insertion order, so it is an association list; the keys are strings, as
    in every JSON object. *)

#[warnings="-register-all"]
Inductive pyval : Type :=
| PNone
| PBool (b : bool)
| PInt (z : Z)
| PStr (s : pystr)
| PBytes (b : list Byte.byte)
| PList (l : list pyval)
| PDict (d : list (pystr * pyval))
| PSlackResponse (data : pyval)
| PStreamingBody (handle : N).

Fixpoint dict_lookup (d : list (pystr * pyval)) (k : pystr) : option pyval :=
  match d with
  | [] => None
  | (k', v) :: d' => if pystr_eqb k' k then Some v else dict_lookup d' k
  end.

(** [bool(v)]: what [if v:] and [if not v:] test. *)
Definition truthy (v : pyval) : bool :=
  match v with
  | PNone => false
  | PBool b => b
  | PInt z => negb (z =? 0)%Z
  | PStr s => match s with [] => false | _ => true end
  | PBytes b => match b with [] => false | _ => true end
  | PList l => match l with [] => false | _ => true end
  | PDict d => match d with [] => false | _ => true end
  | PSlackResponse _ => true
  | PStreamingBody _ => true
  end.

Definition type_name (v : pyval) : pystr :=
  match v with
  | PNone => u "NoneType"
  | PBool _ => u "bool"
  | PInt _ => u "int"
  | PStr _ => u "str"
  | PBytes _ => u "bytes"
  | PList _ => u "list"
  | PDict _ => u "dict"
  | PSlackResponse _ => u "SlackResponse"
  | PStreamingBody _ => u "StreamingBody"
  end.

(** ** Exceptions *)

Inductive exc_class : Type :=
| SlackApiError
| KeyError
| IndexError
| TypeError
| AttributeError
| ValueError
| UnicodeEncodeError
| BareException
| OtherException (name : pystr)
| KeyboardInterrupt
| SystemExit
| GeneratorExit.

(** [BareException] is the class [Exception] itself, [OtherException] any
    other class that derives from it.  [exc_str] is [str(e)];
    [exc_response] is the [response] attribute that a [SlackApiError]
    carries ([PNone] for the other classes). *)
Record exc : Type := mk_exc {
  exc_class_of : exc_class;
  exc_str : pystr;
  exc_response : pyval
}.

(** [isinstance(e, Exception)]: every class but the three that derive from
    [BaseException] directly. *)
Definition is_Exception (e : exc) : bool :=
  match exc_class_of e with
  | KeyboardInterrupt | SystemExit | GeneratorExit => false
  | _ => true
  end.

Definition is_SlackApiError (e : exc) : bool :=
  match exc_class_of e with
  | SlackApiError => true
  | _ => false
  end.

Inductive result (A : Type) : Type :=
| Ok (a : A)
| Raise (e : exc).
Arguments Ok {A} a.
Arguments Raise {A} e.

Definition error {A} (c : exc_class) (msg : pystr) : result A :=
  Raise (mk_exc c msg PNone).

Definition bind_result {A B} (r : result A) (f : A -> result B) : result B :=
  match r with
  | Ok a => f a
  | Raise e => Raise e
  end.

(** ** The operations of Python that the handler uses *)

(** [repr(k)] for a key without quotes, backslashes or unprintable
    characters, which is the case of every key the handler subscripts
    with. *)
Definition repr_key (k : pystr) : pystr := [SQUOTE] ++ k ++ [SQUOTE].

Definition decimal (z : Z) : pystr := u (NilZero.string_of_int (Z.to_int z)).

(** [seq[i]] on a sequence of length [len]: a negative index counts from the
    end. *)
Definition seq_index {A} (l : list A) (i : Z) : option A :=
  let len := Z.of_nat (List.length l) in
  let j := if (i <? 0)%Z then (i + len)%Z else i in
  if (j <? 0)%Z then None else nth_error l (Z.to_nat j).

Definition byte_to_Z (b : Byte.byte) : Z := Z.of_N (Byte.to_N b).

(** [SlackResponse.get(key)] and [SlackResponse.__getitem__(key)], on the
    decoded body [data] of the response.  Both look the key up in the body and
    give [None] when it is absent; they differ on a body that is missing or
    binary. *)
Definition not_supported (what : string) : pystr :=
  u "As the response.data is " ++ u what ++ u ", this operation is unsupported".

Definition no_attribute {A} (v : pyval) (attr : string) : result A :=
  error AttributeError
    ([SQUOTE] ++ type_name v ++ u "' object has no attribute '" ++ u attr ++ [SQUOTE]).

(** [v.get(key)]. *)
Definition py_get (v : pyval) (key : pystr) : result pyval :=
  match v with
  | PDict d =>
      match dict_lookup d key with
      | Some x => Ok x
      | None => Ok PNone
      end
  | PSlackResponse data =>
      match data with
      | PBytes _ => error ValueError (not_supported "binary data")
      | PNone => Ok PNone
      | PDict d =>
          match dict_lookup d key with
          | Some x => Ok x
          | None => Ok PNone
          end
      | _ => no_attribute data "get"
      end
  | _ => no_attribute v "get"
  end.

Definition not_subscriptable {A} (v : pyval) : result A :=
  error TypeError ([SQUOTE] ++ type_name v ++ u "' object is not subscriptable").

(** [v[key]] with a string key. *)
Definition subscript_str (v : pyval) (key : pystr) : result pyval :=
  match v with
  | PDict d =>
      match dict_lookup d key with
      | Some x => Ok x
      | None => error KeyError (repr_key key)
      end
  | PSlackResponse data =>
      match data with
      | PBytes _ => error ValueError (not_supported "binary data")
      | PNone => error ValueError (not_supported "empty")
      | PDict d =>
          match dict_lookup d key with
          | Some x => Ok x
          | None => Ok PNone
          end
      | _ => no_attribute data "get"
      end
  | PList _ => error TypeError (u "list indices must be integers or slices, not str")
  | PStr _ => error TypeError (u "string indices must be integers, not 'str'")
  | PBytes _ => error TypeError (u "byte indices must be integers or slices, not str")
  | _ => not_subscriptable v
  end.

(** [v[i]] with an integer index. *)
Definition subscript_int (v : pyval) (i : Z) : result pyval :=
  match v with
  | PList l =>
      match seq_index l i with
      | Some x => Ok x
      | None => error IndexError (u "list index out of range")
      end
  | PStr s =>
      match seq_index s i with
      | Some c => Ok (PStr [c])
      | None => error IndexError (u "string index out of range")
      end
  | PBytes b =>
      match seq_index b i with
      | Some x => Ok (PInt (byte_to_Z x))
      | None => error IndexError (u "index out of range")
      end
  | PDict _ => error KeyError (decimal i)
  | PSlackResponse data =>
      match data with
      | PBytes _ => error ValueError (not_supported "binary data")
      | PNone => error ValueError (not_supported "empty")
      | PDict _ => Ok PNone
      | _ => no_attribute data "get"
      end
  | _ => not_subscriptable v
  end.

(** *** [json.dumps]

    With its default arguments: [ensure_ascii=True], separators [", "] and
    [": "].  A string is written between double quotes; the double quote and
    the backslash are escaped, and so is every character outside the
    printable ASCII range. *)

Definition hex_digit (d : N) : N :=
  if (d <? 10)%N then (48 + d)%N else (87 + d)%N.

Definition hex4 (n : N) : pystr :=
  [hex_digit ((n / 4096) mod 16); hex_digit ((n / 256) mod 16);
   hex_digit ((n / 16) mod 16); hex_digit (n mod 16)]%N.

Definition u_escape (n : N) : pystr := [BACKSLASH; 117%N] ++ hex4 n.

Definition escape_char (c : N) : pystr :=
  if (c =? BACKSLASH)%N then [BACKSLASH; BACKSLASH]
  else if (c =? DQUOTE)%N then [BACKSLASH; DQUOTE]
  else if (c =? 8)%N then [BACKSLASH; 98%N]
  else if (c =? 12)%N then [BACKSLASH; 102%N]
  else if (c =? 10)%N then [BACKSLASH; 110%N]
  else if (c =? 13)%N then [BACKSLASH; 114%N]
  else if (c =? 9)%N then [BACKSLASH; 116%N]
  else if ((32 <=? c) && (c <=? 126))%N then [c]
  else if (c <? 65536)%N then u_escape c
  else
    let n := (c - 65536)%N in
    u_escape (N.lor 55296 (N.land (N.shiftr n 10) 1023))
      ++ u_escape (N.lor 56320 (N.land n 1023)).

Definition encode_basestring_ascii (s : pystr) : pystr :=
  [DQUOTE] ++ flat_map escape_char s ++ [DQUOTE].

Fixpoint join (sep : pystr) (parts : list pystr) : pystr :=
  match parts with
  | [] => []
  | [p] => p
  | p :: rest => p ++ sep ++ join sep rest
  end.

Definition not_serializable {A} (v : pyval) : result A :=
  error TypeError
    (u "Object of type " ++ type_name v ++ u " is not JSON serializable").

Fixpoint json_dumps (v : pyval) : result pystr :=
  match v with
  | PNone => Ok (u "null")
  | PBool true => Ok (u "true")
  | PBool false => Ok (u "false")
  | PInt z => Ok (decimal z)
  | PStr s => Ok (encode_basestring_ascii s)
  | PList l =>
      let items :=
        (fix items (l : list pyval) : result (list pystr) :=
           match l with
           | [] => Ok []
           | x :: l' =>
               bind_result (json_dumps x) (fun sx =>
               bind_result (items l') (fun sl => Ok (sx :: sl)))
           end) in
      bind_result (items l) (fun sl => Ok (u "[" ++ join (u ", ") sl ++ u "]"))
  | PDict d =>
      let items :=
        (fix items (d : list (pystr * pyval)) : result (list pystr) :=
           match d with
           | [] => Ok []
           | (k, x) :: d' =>
               bind_result (json_dumps x) (fun sx =>
               bind_result (items d') (fun sl =>
               Ok ((encode_basestring_ascii k ++ u ": " ++ sx) :: sl)))
           end) in
      bind_result (items d) (fun sl => Ok (u "{" ++ join (u ", ") sl ++ u "}"))
  | _ => not_serializable v
  end.

(** ** The standard output

    What UTF-8 cannot encode: the surrogate code points. *)

Definition is_surrogate (c : N) : bool := ((55296 <=? c) && (c <=? 57343))%N.
Definition encodable (c : N) : bool := negb (is_surrogate c).

Fixpoint surrogate_run (s : pystr) : N :=
  match s with
  | c :: s' => if is_surrogate c then (1 + surrogate_run s')%N else 0%N
  | [] => 0%N
  end.

(** The first surrogate of [s], counted from [pos]: where it is, which it
    is, and where the run of surrogates it starts ends. *)
Fixpoint find_unencodable (s : pystr) (pos : N) : option (N * N * N) :=
  match s with
  | [] => None
  | c :: s' =>
      if is_surrogate c then Some (pos, c, (pos + 1 + surrogate_run s')%N)
      else find_unencodable s' (pos + 1)%N
  end.

(** [str(e)] for the [UnicodeEncodeError] of the UTF-8 codec. *)
Definition encode_error_text (start c stop : N) : pystr :=
  if (stop =? start + 1)%N then
    u "'utf-8' codec can't encode character '" ++ u_escape c
      ++ u "' in position " ++ decimal (Z.of_N start)
      ++ u ": surrogates not allowed"
  else
    u "'utf-8' codec can't encode characters in position "
      ++ decimal (Z.of_N start) ++ u "-" ++ decimal (Z.of_N (stop - 1))
      ++ u ": surrogates not allowed".

Definition stdout_error (line : pystr) : option exc :=
  match find_unencodable line 0 with
  | None => None
  | Some (start, c, stop) =>
      Some (mk_exc UnicodeEncodeError (encode_error_text start c stop) PNone)
  end.

(** ** The library and the outside world

    What the handler reaches through [json], [slack_sdk] and [boto3] and that
    the repository does not define: they are parameters of the model. *)

(** A Slack client, with the token it sends, and a client of an AWS
    service in a region. *)
Record WebClient : Type := { token : pystr }.
Record BedrockClient : Type := { service_name : pystr; region_name : pystr }.

(** [json_loads]: [json.loads] on the bytes of a response body.
    [repr_other]: [str(v)] for the values whose text Python builds with
    [repr] (bytes, lists and dicts that are not empty, and objects).
    [new_web_client]: [WebClient(token=...)], the client that [slack_sdk]
    builds from a token; the token it keeps need not be the one it was
    given ([slack_sdk] strips it of surrounding white space).
    [boto3_client]: [boto3.client(service_name=..., region_name=...)], which
    builds a client or raises (a service that the installed [botocore] does
    not know, for one). *)
Record PyLib : Type := {
  json_loads : list Byte.byte -> result pyval;
  repr_other : pyval -> pystr;
  new_web_client : pystr -> WebClient;
  boto3_client : pystr -> pystr -> result BedrockClient
}.

(** [str(v)], which is also what [{v}] interpolates in an f-string. *)
Definition py_str (lib : PyLib) (v : pyval) : pystr :=
  match v with
  | PNone => u "None"
  | PBool true => u "True"
  | PBool false => u "False"
  | PInt z => decimal z
  | PStr s => s
  | PBytes [] => u "b''"
  | PList [] => u "[]"
  | PDict [] => u "{}"
  | _ => repr_other lib v
  end.

(** One invocation sees one world: what each remote call answers, or
    raises. *)
Record World : Type := {
  conversations_history :
    WebClient -> pystr -> Z -> bool -> result pyval;
  chat_postMessage :
    WebClient -> pystr -> pystr -> result pyval;
  invoke_model :
    BedrockClient -> pystr -> pystr -> pystr -> pystr -> result pyval;
  stream_read : N -> result (list Byte.byte)
}.

(** The observable actions, in the order in which they happen. *)
Inductive event : Type :=
| EvPrint (line : pystr)
| EvEnviron (key : pystr)
| EvConversationsHistory (c : WebClient) (channel : pystr) (limit : Z)
    (inclusive : bool)
| EvInvokeModel (c : BedrockClient) (body modelId accept contentType : pystr)
| EvStreamRead (handle : N)
| EvChatPostMessage (c : WebClient) (channel text : pystr).

(** ** Computations: a trace of events and a value or an exception *)

Definition M (A : Type) : Type := (list event * result A)%type.

Definition ret {A} (a : A) : M A := ([], Ok a).

Definition bind {A B} (m : M A) (f : A -> M B) : M B :=
  match m with
  | (t, Ok a) => let (t', r) := f a in (t ++ t', r)
  | (t, Raise e) => (t, Raise e)
  end.

Definition lift {A} (r : result A) : M A := ([], r).
Definition raise {A} (e : exc) : M A := ([], Raise e).
Definition emit {A} (ev : event) (r : result A) : M A := ([ev], r).

(** [print(line)].  The log is the standard output, a UTF-8 text stream with
    strict error handling: a line that holds a surrogate code point cannot
    be encoded, and [print] then raises [UnicodeEncodeError] and writes
    nothing.  The error names the first surrogate, or the positions of the
    first run of them. *)
Definition print (line : pystr) : M unit :=
  match stdout_error line with
  | None => emit (EvPrint line) (Ok tt)
  | Some e => raise e
  end.

(** [try: m  except <class> as e: h e], where [catches] is the
    [isinstance] test of the clause. *)
Definition try_except {A} (m : M A) (catches : exc -> bool) (h : exc -> M A)
  : M A :=
  match m with
  | (t, Ok a) => (t, Ok a)
  | (t, Raise e) =>
      if catches e then let (t', r) := h e in (t ++ t', r) else (t, Raise e)
  end.

Declare Scope py_scope.
Delimit Scope py_scope with py.
Notation "x <- m ;; k" := (bind m (fun x => k))
  (at level 61, m at next level, right associativity) : py_scope.
Notation "m ;; k" := (bind m (fun _ => k))
  (at level 61, right associativity) : py_scope.
Local Open Scope py_scope.

Definition trace {A} (m : M A) : list event := fst m.
Definition returned {A} (m : M A) : result A := snd m.

(** ** The module

    *** Initialisation: the statements at the top level of the module,
    run once when the runtime imports it. *)

Record Globals : Type := {
  slack_bot_token : pystr;
  slack_client : WebClient;
  bedrock_runtime : BedrockClient
}.

Definition is_KeyError (e : exc) : bool :=
  match exc_class_of e with
  | KeyError => true
  | _ => false
  end.

Fixpoint environ_lookup (environ : list (pystr * pystr)) (k : pystr)
  : option pystr :=
  match environ with
  | [] => None
  | (k', v) :: rest => if pystr_eqb k' k then Some v else environ_lookup rest k
  end.

(** [os.environ[key]]. *)
Definition os_environ (environ : list (pystr * pystr)) (key : pystr)
  : M pystr :=
  emit (EvEnviron key)
    match environ_lookup environ key with
    | Some v => Ok v
    | None => error KeyError (repr_key key)
    end.

(** The [try] statement that reads the token. *)
Definition module_init (environ : list (pystr * pystr)) : M pystr :=
  try_except
    (os_environ environ (u "SLACK_BOT_TOKEN"))
    is_KeyError
    (fun _ =>
       raise (mk_exc BareException
                (u "環境変数 `SLACK_BOT_TOKEN` が設定されていません。")
                PNone)).

(** The two assignments that build the clients. *)
Definition module_clients (lib : PyLib) (tok : pystr) : M Globals :=
  let client := new_web_client lib tok in
  runtime <- lift (boto3_client lib (u "bedrock-runtime") (u "us-east-1")) ;;
  ret {| slack_bot_token := tok;
         slack_client := client;
         bedrock_runtime := runtime |}.

(** The top level of the module, from the first statement to the last. *)
Definition module_import (lib : PyLib) (environ : list (pystr * pystr))
  : M Globals :=
  tok <- module_init environ ;;
  module_clients lib tok.

(** *** The three steps and the handler *)

Record Outcome : Type := { statusCode : Z; body : pystr }.

Section Handler.

Variable lib : PyLib.
Variable w : World.
Variable g : Globals.

Definition get_latest_message_from_slack (channel_id : pystr) : M pyval :=
  print (u "Fetching message from channel: " ++ channel_id) ;;
  try_except
    (response <- emit (EvConversationsHistory (slack_client g) channel_id 1 true)
                   (conversations_history w (slack_client g) channel_id 1 true) ;;
     messages <- lift (subscript_str response (u "messages")) ;;
     if truthy messages then
       messages <- lift (subscript_str response (u "messages")) ;;
       first <- lift (subscript_int messages 0) ;;
       latest_message <- lift (subscript_str first (u "text")) ;;
       print (u "Found message: " ++ py_str lib latest_message) ;;
       ret latest_message
     else
       print (u "No messages found in the channel.") ;;
       ret PNone)
    is_SlackApiError
    (fun e =>
       err <- lift (subscript_str (exc_response e) (u "error")) ;;
       print (u "Slack API Error (history): " ++ py_str lib err) ;;
       raise e).

Definition prompt_for (text_to_summarize : pyval) : pystr :=
  u "Human: 以下のSlackの投稿を、重要なポイントを箇条書きで簡潔に要約してください。"
    ++ [LF; LF] ++ u "<投稿内容>" ++ [LF]
    ++ py_str lib text_to_summarize ++ [LF]
    ++ u "</投稿内容>" ++ [LF; LF] ++ u "Assistant:".

Definition request_for (prompt : pystr) : pyval :=
  PDict
    [(u "anthropic_version", PStr (u "bedrock-2023-05-31"));
     (u "max_tokens", PInt 1000);
     (u "messages",
      PList
        [PDict
           [(u "role", PStr (u "user"));
            (u "content",
             PList
               [PDict [(u "type", PStr (u "text"));
                       (u "text", PStr prompt)]])]])].

Definition MODEL_ID : pystr := u "anthropic.claude-3-7-sonnet-20250219-v1:0".

(** [b.read()] *)
Definition py_read (b : pyval) : M (list Byte.byte) :=
  match b with
  | PStreamingBody h => emit (EvStreamRead h) (stream_read w h)
  | _ => lift (no_attribute b "read")
  end.

Definition invoke_bedrock_model (text_to_summarize : pyval) : M pyval :=
  print (u "Invoking Bedrock model (Claude 3.7 Sonnet)...") ;;
  let prompt := prompt_for text_to_summarize in
  body <- lift (json_dumps (request_for prompt)) ;;
  try_except
    (response <- emit (EvInvokeModel (bedrock_runtime g) body MODEL_ID
                         (u "application/json") (u "application/json"))
                   (invoke_model w (bedrock_runtime g) body MODEL_ID
                      (u "application/json") (u "application/json")) ;;
     stream <- lift (py_get response (u "body")) ;;
     raw <- py_read stream ;;
     response_body <- lift (json_loads lib raw) ;;
     content <- lift (py_get response_body (u "content")) ;;
     segment <- lift (subscript_int content 0) ;;
     summary <- lift (py_get segment (u "text")) ;;
     print (u "Successfully got summary from Bedrock: " ++ py_str lib summary) ;;
     ret summary)
    is_Exception
    (fun e =>
       print (u "Bedrock invocation error: " ++ exc_str e) ;;
       raise e).

Definition post_message_to_slack (channel_id text : pystr) : M pyval :=
  print (u "Posting message to channel: " ++ channel_id) ;;
  try_except
    (emit (EvChatPostMessage (slack_client g) channel_id text)
       (chat_postMessage w (slack_client g) channel_id text) ;;
     print (u "Successfully posted message to Slack.") ;;
     ret PNone)
    is_SlackApiError
    (fun e =>
       err <- lift (subscript_str (exc_response e) (u "error")) ;;
       print (u "Slack API Error (post): " ++ py_str lib err) ;;
       raise e).

Definition INPUT_CHANNEL_ID : pystr := u "C091S67LDEJ".
Definition OUTPUT_CHANNEL_ID : pystr := u "C09344CE82C".

Definition PREFIX : pystr := u "【AIによる要約】".

(** The statements inside the [try] of [lambda_handler]. *)
Definition handler_body : M Outcome :=
  message_text <- get_latest_message_from_slack INPUT_CHANNEL_ID ;;
  if negb (truthy message_text) then
    print (u "--- End Execution: No message found ---") ;;
    b <- lift (json_dumps (PStr (u "No new messages to process."))) ;;
    ret {| statusCode := 200; body := b |}
  else
    summary <- invoke_bedrock_model message_text ;;
    let result_text := PREFIX ++ [LF] ++ u ">>> " ++ py_str lib summary in
    post_message_to_slack OUTPUT_CHANNEL_ID result_text ;;
    print (u "--- End Execution: Success ---") ;;
    b <- lift (json_dumps (PStr (u "Successfully processed message."))) ;;
    ret {| statusCode := 200; body := b |}.

Definition lambda_handler (event context : pyval) : M Outcome :=
  print (u "--- Start Execution ---") ;;
  try_except handler_body is_Exception
    (fun e =>
       print (u "An unexpected error occurred: " ++ exc_str e) ;;
       print (u "--- End Execution: Error ---") ;;
       b <- lift (json_dumps (PStr (u "An error occurred: " ++ exc_str e))) ;;
       ret {| statusCode := 500; body := b |}).

End Handler.

(** *** The process

    The runtime imports the module once, which runs [module_import], and
    then calls [lambda_handler] once per event; an import that raises ends the
    process before any call.  Each invocation meets its own world. *)

Fixpoint serve (lib : PyLib) (g : Globals) (worlds : list World)
  : list event * list (result Outcome) :=
  match worlds with
  | [] => ([], [])
  | w :: rest =>
      let (t, r) := lambda_handler lib w g PNone PNone in
      let (t', rs) := serve lib g rest in
      (t ++ t', r :: rs)
  end.

Definition process (lib : PyLib) (environ : list (pystr * pystr))
    (worlds : list World) : M (list (result Outcome)) :=
  match module_import lib environ with
  | (t, Raise e) => (t, Raise e)
  | (t, Ok g) => let (t', rs) := serve lib g worlds in (t ++ t', Ok rs)
  end.

(** ** Observations on traces *)

Definition is_fetch_call (ev : event) : bool :=
  match ev with EvConversationsHistory _ _ _ _ => true | _ => false end.
Definition is_inference_call (ev : event) : bool :=
  match ev with EvInvokeModel _ _ _ _ _ => true | _ => false end.
Definition is_post_call (ev : event) : bool :=
  match ev with EvChatPostMessage _ _ _ => true | _ => false end.
Definition is_environ_read (ev : event) : bool :=
  match ev with EvEnviron _ => true | _ => false end.
Definition is_print (ev : event) : bool :=
  match ev with EvPrint _ => true | _ => false end.

(** The remote calls of a trace, in order: everything but the log lines. *)
Definition remote_calls (t : list event) : list event :=
  filter (fun ev => negb (is_print ev)) t.

Definition count (p : event -> bool) (t : list event) : nat :=
  List.length (filter p t).


(** ** The steps of one invocation, and what is observed of them *)

Section Steps.

Variable lib : PyLib.
Variable w : World.
Variable g : Globals.

Definition fetch_call (channel : pystr) : event :=
  EvConversationsHistory (slack_client g) channel 1 true.

Definition inference_call (request : pystr) : event :=
  EvInvokeModel (bedrock_runtime g) request MODEL_ID
    (u "application/json") (u "application/json").

Definition post_call (text : pystr) : event :=
  EvChatPostMessage (slack_client g) OUTPUT_CHANNEL_ID text.

(** The text that step 3 builds from a summary. *)
Definition result_text_for (summary : pyval) : pystr :=
  PREFIX ++ [LF] ++ u ">>> " ++ py_str lib summary.

(** The request that the inference step sends. *)
Definition request_body (text : pyval) : pystr :=
  match json_dumps (request_for (prompt_for lib text)) with
  | Ok b => b
  | Raise _ => []
  end.

Definition NO_OP_BODY : pystr :=
  [DQUOTE] ++ u "No new messages to process." ++ [DQUOTE].
Definition SUCCESS_BODY : pystr :=
  [DQUOTE] ++ u "Successfully processed message." ++ [DQUOTE].
Definition failure_body (e : exc) : pystr :=
  encode_basestring_ascii (u "An error occurred: " ++ exc_str e).

Definition fetch_step : M pyval :=
  get_latest_message_from_slack lib w g INPUT_CHANNEL_ID.
Definition summarize_step (message_text : pyval) : M pyval :=
  invoke_bedrock_model lib w g message_text.
Definition post_step (summary : pyval) : M pyval :=
  post_message_to_slack lib w g OUTPUT_CHANNEL_ID (result_text_for summary).


(** The clause that logs a [SlackApiError] raises the exception of the call
    itself when there is nothing to log, or when the code of the error can
    be read and logged. *)
Definition logs_slack_error (line : pystr) (e : exc) : Prop :=
  is_SlackApiError e = false
  \/ (exists code,
        subscript_str (exc_response e) (u "error") = Ok code
        /\ forallb encodable (line ++ py_str lib code) = true).

(** What is taken out of a decoded answer. *)
Definition extract_summary (raw : list Byte.byte) : result pyval :=
  bind_result (json_loads lib raw) (fun response_body =>
  bind_result (py_get response_body (u "content")) (fun content =>
  bind_result (subscript_int content 0) (fun segment =>
  py_get segment (u "text")))).

Definition START : event := EvPrint (u "--- Start Execution ---").

End Steps.


(** Printable ASCII: the characters from the space to the tilde. *)
Definition printable_ascii (c : N) : bool := ((32 <=? c) && (c <=? 126))%N.

(** The last log line of an invocation that returns, by its outcome. *)
Definition NO_MESSAGE_END : event :=
  EvPrint (u "--- End Execution: No message found ---").
Definition SUCCESS_END : event := EvPrint (u "--- End Execution: Success ---").
Definition ERROR_END : event := EvPrint (u "--- End Execution: Error ---").

(** What leaves an [except] clause that prints [line] and raises [e]
    again: [e], or the error of the print. *)
Definition raised_after_log (line : pystr) (e : exc) : exc :=
  match stdout_error line with
  | Some err => err
  | None => e
  end.



Definition end_marker (o : Outcome) : event :=
  if (statusCode o =? 500)%Z then ERROR_END
  else if pystr_eqb (body o) NO_OP_BODY then NO_MESSAGE_END
  else SUCCESS_END.

(** ** Sample worlds *)

Module Samples.

(** The bytes of an ASCII text. *)
Definition to_bytes (s : pystr) : list Byte.byte :=
  map (fun c => match Byte.of_N c with Some b => b | None => Byte.x3f end) s.

Definition json_text (v : pyval) : pystr :=
  match json_dumps v with
  | Ok s => s
  | Raise _ => []
  end.

(** The decoded body of a Bedrock response whose first segment is [text],
    and the bytes that carry it. *)
Definition summary_value : pyval :=
  PDict [(u "content",
          PList [PDict [(u "type", PStr (u "text"));
                        (u "text", PStr (u "- Shipped v2"))]])].

Definition summary_payload : list Byte.byte :=
  to_bytes (json_text summary_value).

Definition bytes_eqb (a b : list Byte.byte) : bool :=
  if list_eq_dec Byte.byte_eq_dec a b then true else false.

(** The decoded body of an answer without a [content] field. *)
Definition no_content_value : pyval :=
  PDict [(u "type", PStr (u "error"))].

Definition no_content_payload : list Byte.byte :=
  to_bytes (json_text no_content_value).


(** White space, as [str.strip] sees it. *)
Definition isspace (c : N) : bool :=
  (((9 <=? c) && (c <=? 13)) || ((28 <=? c) && (c <=? 32))
   || (c =? 133) || (c =? 160) || (c =? 5760)
   || ((8192 <=? c) && (c <=? 8202)) || (c =? 8232) || (c =? 8233)
   || (c =? 8239) || (c =? 8287) || (c =? 12288))%N.

Fixpoint lstrip (s : pystr) : pystr :=
  match s with
  | c :: rest => if isspace c then lstrip rest else s
  | [] => []
  end.

Definition strip (s : pystr) : pystr := rev (lstrip (rev (lstrip s))).

(** A decoder that knows the two response bodies the samples use, a Slack
    client that strips its token, and a [boto3] that knows every service. *)
Definition lib0 : PyLib :=
  {| json_loads := fun raw =>
       if bytes_eqb raw summary_payload then Ok summary_value
       else if bytes_eqb raw no_content_payload then Ok no_content_value
       else Raise (mk_exc (OtherException (u "JSONDecodeError"))
                     (u "Expecting value: line 1 column 1 (char 0)") PNone);
     repr_other := fun _ => u "<object>";
     new_web_client := fun tok => {| token := strip tok |};
     boto3_client := fun service region =>
       Ok {| service_name := service; region_name := region |} |}.

Definition env0 : list (pystr * pystr) :=
  [(u "SLACK_BOT_TOKEN", u "xoxb-test")].

Definition g0 : Globals :=
  {| slack_bot_token := u "xoxb-test";
     slack_client := {| token := u "xoxb-test" |};
     bedrock_runtime := {| service_name := u "bedrock-runtime";
                           region_name := u "us-east-1" |} |}.

Definition history_of (messages : list pyval) : pyval :=
  PSlackResponse (PDict [(u "ok", PBool true); (u "messages", PList messages)]).

Definition message (text : pystr) : pyval :=
  PDict [(u "type", PStr (u "message")); (u "text", PStr text)].

Definition bedrock_response : pyval :=
  PDict [(u "contentType", PStr (u "application/json"));
         (u "body", PStreamingBody 0)].

Definition post_ok : pyval := PSlackResponse (PDict [(u "ok", PBool true)]).

(** A channel whose latest message is [text]; inference and post succeed. *)
Definition world_with (text : pystr) : World :=
  {| conversations_history := fun _ _ _ _ => Ok (history_of [message text]);
     chat_postMessage := fun _ _ _ => Ok post_ok;
     invoke_model := fun _ _ _ _ _ => Ok bedrock_response;
     stream_read := fun _ => Ok summary_payload |}.

Definition world_empty : World :=
  {| conversations_history := fun _ _ _ _ => Ok (history_of []);
     chat_postMessage := fun _ _ _ => Ok post_ok;
     invoke_model := fun _ _ _ _ _ => Ok bedrock_response;
     stream_read := fun _ => Ok summary_payload |}.

(** The same world, where the body of the model's answer is [raw]. *)
Definition world_reading (raw : list Byte.byte) : World :=
  {| conversations_history :=
       fun _ _ _ _ => Ok (history_of [message (u "Hello")]);
     chat_postMessage := fun _ _ _ => Ok post_ok;
     invoke_model := fun _ _ _ _ _ => Ok bedrock_response;
     stream_read := fun _ => Ok raw |}.

(** Errors of the remote services. *)
Definition slack_error : exc :=
  mk_exc SlackApiError
    (u "The request to the Slack API failed. (url: https://slack.com/api/conversations.history)"
       ++ [LF]
       ++ u "The server responded with: {'ok': False, 'error': 'channel_not_found'}")
    (PSlackResponse
       (PDict [(u "ok", PBool false);
               (u "error", PStr (u "channel_not_found"))])).

Definition throttled : exc :=
  mk_exc (OtherException (u "ClientError"))
    (u "An error occurred (ThrottlingException) when calling the InvokeModel operation: Too many requests")
    PNone.


Definition world_fetch_raising (e : exc) : World :=
  {| conversations_history := fun _ _ _ _ => Raise e;
     chat_postMessage := fun _ _ _ => Ok post_ok;
     invoke_model := fun _ _ _ _ _ => Ok bedrock_response;
     stream_read := fun _ => Ok summary_payload |}.

Definition world_inference_raising (e : exc) : World :=
  {| conversations_history :=
       fun _ _ _ _ => Ok (history_of [message (u "Hello")]);
     chat_postMessage := fun _ _ _ => Ok post_ok;
     invoke_model := fun _ _ _ _ _ => Raise e;
     stream_read := fun _ => Ok summary_payload |}.

Definition world_post_raising (e : exc) : World :=
  {| conversations_history :=
       fun _ _ _ _ => Ok (history_of [message (u "Hello")]);
     chat_postMessage := fun _ _ _ => Raise e;
     invoke_model := fun _ _ _ _ _ => Ok bedrock_response;
     stream_read := fun _ => Ok summary_payload |}.

(** A [SlackApiError] whose [response] is the plain dict of a reply that
    did not decode: it has no [error] entry. *)
Definition slack_error_without_code : exc :=
  mk_exc SlackApiError
    (u "Received a response in a non-JSON format: <html>")
    (PDict [(u "status", PInt 502); (u "body", PStr (u "<html>"))]).

(** A latest message without a [text] entry. *)
Definition message_without_text : pyval :=
  PDict [(u "type", PStr (u "message")); (u "subtype", PStr (u "huddle_thread"))].

Definition world_without_text : World :=
  {| conversations_history :=
       fun _ _ _ _ => Ok (history_of [message_without_text]);
     chat_postMessage := fun _ _ _ => Ok post_ok;
     invoke_model := fun _ _ _ _ _ => Ok bedrock_response;
     stream_read := fun _ => Ok summary_payload |}.

(** The decoded body of an answer whose first segment has no [text]. *)
Definition tool_use_value : pyval :=
  PDict [(u "content",
          PList [PDict [(u "type", PStr (u "tool_use"))]])].

Definition tool_use_payload : list Byte.byte :=
  to_bytes (json_text tool_use_value).

(** [lib0], with the third response body. *)
Definition lib1 : PyLib :=
  {| json_loads := fun raw =>
       if bytes_eqb raw tool_use_payload then Ok tool_use_value
       else json_loads lib0 raw;
     repr_other := repr_other lib0;
     new_web_client := new_web_client lib0;
     boto3_client := boto3_client lib0 |}.


(** An answer of the model call without a [body] entry. *)
Definition world_without_body : World :=
  {| conversations_history :=
       fun _ _ _ _ => Ok (history_of [message (u "Hello")]);
     chat_postMessage := fun _ _ _ => Ok post_ok;
     invoke_model :=
       fun _ _ _ _ _ =>
         Ok (PDict [(u "contentType", PStr (u "application/json"))]);
     stream_read := fun _ => Ok summary_payload |}.






(** [lib0], with a [boto3] that does not know the service. *)
Definition unknown_service : exc :=
  mk_exc (OtherException (u "UnknownServiceError"))
    (u "Unknown service: 'bedrock-runtime'.") PNone.

Definition lib_old_boto3 : PyLib :=
  {| json_loads := json_loads lib0;
     repr_other := repr_other lib0;
     new_web_client := new_web_client lib0;
     boto3_client := fun _ _ => Raise unknown_service |}.

Definition env_padded : list (pystr * pystr) :=
  [(u "SLACK_BOT_TOKEN", u " xoxb-test ")].

End Samples.


(** Case analysis on the next thing a step consults: the answer of a remote
    call, the result of an operation of Python, a test. *)
Ltac case_on_next :=
  match goal with
  | |- context [conversations_history ?w ?c ?ch ?l ?i] =>
      destruct (conversations_history w c ch l i) eqn:?
  | |- context [chat_postMessage ?w ?c ?ch ?t] =>
      destruct (chat_postMessage w c ch t) eqn:?
  | |- context [invoke_model ?w ?c ?b ?m ?a ?t] =>
      destruct (invoke_model w c b m a t) eqn:?
  | |- context [stream_read ?w ?h] => destruct (stream_read w h) eqn:?
  | |- context [json_loads ?lib ?raw] => destruct (json_loads lib raw) eqn:?
  | |- context [subscript_str ?v ?k] => destruct (subscript_str v k) eqn:?
  | |- context [subscript_int ?v ?i] => destruct (subscript_int v i) eqn:?
  | |- context [py_get ?v ?k] => destruct (py_get v k) eqn:?
  | |- context [truthy ?v] => destruct (truthy v) eqn:?
  | |- context [is_SlackApiError ?e] => destruct (is_SlackApiError e) eqn:?
  | |- context [is_Exception ?e] => destruct (is_Exception e) eqn:?
  | |- context [match ?v with PStreamingBody _ => _ | _ => _ end] =>
      destruct v eqn:?
  end.

(** * Properties *)

Lemma u_ascii (a : ascii) (s : string) :
  (N_of_ascii a <? 128)%N = true -> u (String a s) = N_of_ascii a :: u s.
Proof. intros H. simpl. now rewrite H. Qed.

Arguments u : simpl never.
Arguments subscript_str : simpl never.
Arguments subscript_int : simpl never.
Arguments py_get : simpl never.
Arguments py_str : simpl never.
Arguments json_dumps : simpl never.
Arguments encode_basestring_ascii : simpl never.
Arguments print : simpl never.
Arguments stdout_error : simpl never.

(** ** The Python fragment *)

Lemma startswith_sound (s p : pystr) :
  startswith s p = true -> begins_with s p.
Proof.
  revert s; induction p as [|y p IH]; intros s H.
  - now exists s.
  - destruct s as [|x s]; simpl in H; [discriminate|].
    apply andb_prop in H as [Hxy Hrest].
    apply N.eqb_eq in Hxy; subst y.
    destruct (IH _ Hrest) as [rest ->].
    now exists rest.
Qed.

Lemma contains_sound (s p : pystr) :
  contains s p = true -> substring_of p s.
Proof.
  induction s as [|x s IH]; simpl; intros H.
  - destruct p; [|discriminate]. now exists [], [].
  - apply orb_prop in H as [H|H].
    + destruct (startswith_sound (x :: s) p H) as [rest Hrest].
      exists [], rest. exact Hrest.
    + destruct (IH H) as (before & after & ->).
      now exists (x :: before), after.
Qed.




(** *** What the standard output can encode *)

Lemma printable_is_encodable (c : N) :
  printable_ascii c = true -> encodable c = true.
Proof.
  unfold printable_ascii, encodable, is_surrogate. intros H.
  apply andb_prop in H as [_ Hhi]. apply N.leb_le in Hhi.
  apply negb_true_iff, andb_false_intro1, N.leb_gt. lia.
Qed.

Lemma printable_text_is_encodable (s : pystr) :
  forallb printable_ascii s = true -> forallb encodable s = true.
Proof.
  induction s as [|c s IH]; [reflexivity|]. simpl.
  intros H. apply andb_prop in H as [Hc Hs].
  now rewrite (printable_is_encodable c Hc), IH.
Qed.

Lemma digits_printable_from (d : Decimal.uint) :
  forallb printable_ascii (u (NilEmpty.string_of_uint d)) = true.
Proof.
  induction d as [|d IH|d IH|d IH|d IH|d IH|d IH|d IH|d IH|d IH|d IH];
    [reflexivity|..];
    simpl NilEmpty.string_of_uint; rewrite u_ascii by reflexivity;
    simpl forallb; rewrite IH; reflexivity.
Qed.

Lemma decimal_printable (z : Z) :
  forallb printable_ascii (decimal z) = true.
Proof.
  unfold decimal, NilZero.string_of_int.
  destruct (Z.to_int z) as [d|d]; unfold NilZero.string_of_uint.
  - destruct d; try reflexivity; apply digits_printable_from.
  - rewrite u_ascii by reflexivity. simpl forallb.
    destruct d; try reflexivity; apply digits_printable_from.
Qed.

Lemma hex_digit_printable (d : N) :
  (d < 16)%N -> printable_ascii (hex_digit d) = true.
Proof.
  intros Hd. unfold hex_digit, printable_ascii.
  destruct (d <? 10)%N eqn:E;
    [apply N.ltb_lt in E|apply N.ltb_ge in E];
    apply andb_true_intro; split; apply N.leb_le; lia.
Qed.

Lemma u_escape_printable (n : N) :
  forallb printable_ascii (u_escape n) = true.
Proof.
  unfold u_escape, hex4. cbn [app forallb].
  rewrite !hex_digit_printable by (apply N.mod_lt; discriminate).
  reflexivity.
Qed.

Lemma find_unencodable_none (s : pystr) (pos : N) :
  forallb encodable s = true -> find_unencodable s pos = None.
Proof.
  revert pos. induction s as [|c s IH]; intros pos H; [reflexivity|].
  simpl in *. apply andb_prop in H as [Hc Hs].
  unfold encodable in Hc. apply negb_true_iff in Hc. rewrite Hc.
  now apply IH.
Qed.

Lemma find_unencodable_some (s : pystr) (pos : N) :
  forallb encodable s = false -> exists r, find_unencodable s pos = Some r.
Proof.
  revert pos. induction s as [|c s IH]; intros pos H; [discriminate|].
  simpl in *. unfold encodable in H.
  destruct (is_surrogate c); [eexists; reflexivity|].
  simpl in H. now apply IH.
Qed.

Lemma stdout_accepts (line : pystr) :
  forallb encodable line = true -> stdout_error line = None.
Proof.
  intros H. unfold stdout_error. now rewrite (find_unencodable_none _ _ H).
Qed.

Lemma stdout_refuses (line : pystr) :
  forallb encodable line = false -> exists e, stdout_error line = Some e.
Proof.
  intros H. unfold stdout_error.
  destruct (find_unencodable_some line 0 H) as ([[start c] stop] & ->).
  eexists. reflexivity.
Qed.

Lemma stdout_error_accepted (line : pystr) (e : exc) :
  stdout_error line = Some e -> forallb encodable line = false.
Proof.
  intros H. destruct (forallb encodable line) eqn:E; [|reflexivity].
  rewrite (stdout_accepts _ E) in H. discriminate.
Qed.


(** The error of a print derives from [Exception], is no [SlackApiError],
    and can itself be printed. *)
Lemma stdout_error_is_loggable (line : pystr) (e : exc) :
  stdout_error line = Some e ->
  is_Exception e = true /\ is_SlackApiError e = false
  /\ forallb encodable (exc_str e) = true.
Proof.
  unfold stdout_error.
  destruct (find_unencodable line 0) as [[[start c] stop]|]; [|discriminate].
  intros [= <-]. split; [reflexivity|split; [reflexivity|]].
  apply printable_text_is_encodable. cbn [exc_str].
  unfold encode_error_text.
  destruct (stop =? start + 1)%N; rewrite !forallb_app;
    rewrite ?u_escape_printable, ?decimal_printable; reflexivity.
Qed.

Lemma print_ok (line : pystr) :
  forallb encodable line = true -> print line = ([EvPrint line], Ok tt).
Proof. intros H. unfold print. now rewrite (stdout_accepts _ H). Qed.

Lemma print_fails (line : pystr) (e : exc) :
  stdout_error line = Some e -> print line = ([], Raise e).
Proof. intros H. unfold print. now rewrite H. Qed.

Lemma print_cases (line : pystr) :
  (forallb encodable line = true /\ print line = ([EvPrint line], Ok tt))
  \/ (exists e, stdout_error line = Some e /\ print line = ([], Raise e)).
Proof.
  destruct (forallb encodable line) eqn:E.
  - left. split; [reflexivity|]. now apply print_ok.
  - right. destruct (stdout_refuses _ E) as (e & He).
    exists e. split; [exact He|]. now apply print_fails.
Qed.

Lemma encodable_app (a b : pystr) :
  forallb encodable (a ++ b) = true ->
  forallb encodable a = true /\ forallb encodable b = true.
Proof. rewrite forallb_app. apply andb_prop. Qed.

(** *** The errors of subscripting and of [get] *)

Lemma type_name_printable (v : pyval) :
  forallb printable_ascii (type_name v) = true.
Proof. destruct v; reflexivity. Qed.

Ltac printable_pieces :=
  cbn [exc_str]; rewrite ?forallb_app;
  rewrite ?type_name_printable, ?decimal_printable;
  try reflexivity.


Lemma subscript_int_raises (v : pyval) (i : Z) (e : exc) :
  subscript_int v i = Raise e ->
  is_Exception e = true /\ is_SlackApiError e = false
  /\ forallb encodable (exc_str e) = true.
Proof.
  intros H.
  assert (Hp : is_Exception e = true /\ is_SlackApiError e = false
               /\ forallb printable_ascii (exc_str e) = true).
  { revert H.
    unfold subscript_int, not_subscriptable, no_attribute, error,
      not_supported.
    destruct v as [| | |s|b|l| |data|];
      try (intros [= <-]; repeat split; printable_pieces).
    - destruct (seq_index s i); intros [= <-]. repeat split.
    - destruct (seq_index b i); intros [= <-]. repeat split.
    - destruct (seq_index l i); intros [= <-]. repeat split.
    - destruct data; intros [= <-]; repeat split; printable_pieces. }
  destruct Hp as (H1 & H2 & H3).
  repeat split; try assumption. now apply printable_text_is_encodable.
Qed.

Lemma py_get_raises (v : pyval) (k : pystr) (e : exc) :
  py_get v k = Raise e ->
  is_Exception e = true /\ is_SlackApiError e = false
  /\ forallb encodable (exc_str e) = true.
Proof.
  intros H.
  assert (Hp : is_Exception e = true /\ is_SlackApiError e = false
               /\ forallb printable_ascii (exc_str e) = true).
  { revert H.
    unfold py_get, no_attribute, error, not_supported.
    destruct v as [| | | | | |d|data|];
      try (intros [= <-]; repeat split; printable_pieces).
    - destruct (dict_lookup d k); intros [= <-].
    - destruct data as [| | | | | |d| |];
        try (intros [= <-]; repeat split; printable_pieces).
      destruct (dict_lookup d k); intros [= <-]. }
  destruct Hp as (H1 & H2 & H3).
  repeat split; try assumption. now apply printable_text_is_encodable.
Qed.

(** A value that can be indexed by an integer is true. *)
Lemma subscript_int_truthy (v x : pyval) (i : Z) :
  subscript_int v i = Ok x -> truthy v = true.
Proof.
  unfold subscript_int, seq_index, not_subscriptable, no_attribute, error.
  destruct v as [| | |s|b|l| |data|]; try discriminate; try reflexivity.
  - destruct s; [|reflexivity].
    destruct (i <? 0)%Z; simpl; destruct (_ <? 0)%Z; try discriminate;
      destruct (Z.to_nat _); discriminate.
  - destruct b; [|reflexivity].
    destruct (i <? 0)%Z; simpl; destruct (_ <? 0)%Z; try discriminate;
      destruct (Z.to_nat _); discriminate.
  - destruct l; [|reflexivity].
    destruct (i <? 0)%Z; simpl; destruct (_ <? 0)%Z; try discriminate;
      destruct (Z.to_nat _); discriminate.
Qed.

(** The printed form of a value that is false. *)
Lemma false_value_is_loggable (lib : PyLib) (v : pyval) :
  truthy v = false -> forallb encodable (py_str lib v) = true.
Proof.
  unfold py_str.
  destruct v as [|[|]|z|s|b|l|d| |]; try discriminate; try reflexivity.
  - simpl. intros Hz. apply negb_false_iff, Z.eqb_eq in Hz. now subst z.
  - destruct s; [reflexivity|discriminate].
  - destruct b; [reflexivity|discriminate].
  - destruct l; [reflexivity|discriminate].
  - destruct d; [reflexivity|discriminate].
Qed.

(** *** [json.dumps] *)



Lemma escape_char_printable (c : N) :
  forallb printable_ascii (escape_char c) = true.
Proof.
  unfold escape_char.
  repeat match goal with
         | |- context [if ?b then _ else _] => destruct b eqn:?
         end;
    try reflexivity;
    try apply u_escape_printable.
  - cbn. unfold printable_ascii.
    match goal with H : (_ && _)%bool = true |- _ => now rewrite H end.
  - rewrite forallb_app. now rewrite !u_escape_printable.
Qed.

Lemma encode_printable (s : pystr) :
  forallb printable_ascii (encode_basestring_ascii s) = true.
Proof.
  unfold encode_basestring_ascii. rewrite !forallb_app.
  assert (H : forallb printable_ascii (flat_map escape_char s) = true).
  { induction s as [|c s IH]; [reflexivity|].
    cbn [flat_map]. rewrite forallb_app.
    now rewrite escape_char_printable, IH. }
  now rewrite H.
Qed.

(** ** The steps, one by one *)

Ltac case_on_print :=
  match goal with
  | |- context [print ?l] =>
      let e := fresh "e" in
      let Herr := fresh "Herr" in
      let Henc := fresh "Henc" in
      destruct (print_cases l) as [[Henc ->]|(e & Herr & ->)]
  end.

Ltac run_step := repeat (cbn; try first [case_on_next | case_on_print]).

Section StepFacts.

Variable lib : PyLib.
Variable w : World.
Variable g : Globals.

(** The exception that leaves a clause that logs [e] and raises it again:
    [e] when it could be logged, and an error that can be logged
    otherwise. *)
Lemma logged_and_raised {A} (m : M A) (prefix : pystr) (t : list event)
    (e : exc) :
  try_except m is_Exception
    (fun e => print (prefix ++ exc_str e) ;; raise e)%py = (t, Raise e) ->
  is_Exception e = true ->
  forallb encodable (exc_str e) = true.
Proof.
  destruct m as [t0 [a|e0]]; unfold try_except, bind, raise;
    [discriminate|].
  destruct (is_Exception e0) eqn:He0.
  - destruct (print_cases (prefix ++ exc_str e0))
      as [[Henc ->]|(err & Herr & ->)]; intros [= _ <-] _.
    + now apply encodable_app in Henc.
    + now apply stdout_error_is_loggable in Herr.
  - intros [= _ <-] He. congruence.
Qed.

(** *** The fetch step *)

Lemma fetch_remote_calls (channel : pystr) :
  forallb encodable channel = true ->
  remote_calls (trace (get_latest_message_from_slack lib w g channel))
  = [fetch_call g channel].
Proof.
  intros Hch.
  unfold get_latest_message_from_slack, fetch_call.
  rewrite (print_ok (u "Fetching message from channel: " ++ channel))
    by (rewrite forallb_app, Hch; reflexivity).
  unfold bind, try_except, emit, lift, raise, ret, trace.
  run_step; reflexivity.
Qed.

Lemma fetch_returns_none (channel : pystr) (response messages : pyval) :
  forallb encodable channel = true ->
  conversations_history w (slack_client g) channel 1 true = Ok response ->
  subscript_str response (u "messages") = Ok messages ->
  truthy messages = false ->
  get_latest_message_from_slack lib w g channel
  = ([EvPrint (u "Fetching message from channel: " ++ channel);
      fetch_call g channel;
      EvPrint (u "No messages found in the channel.")], Ok PNone).
Proof.
  intros Hch Hcall Hmsgs Hempty.
  unfold get_latest_message_from_slack, fetch_call.
  rewrite (print_ok (u "Fetching message from channel: " ++ channel))
    by (rewrite forallb_app, Hch; reflexivity).
  unfold bind, try_except, emit, lift, raise, ret.
  cbn. rewrite Hcall. cbn. rewrite Hmsgs. cbn. rewrite Hempty.
  rewrite (print_ok (u "No messages found in the channel.")) by reflexivity.
  reflexivity.
Qed.

(** What the fetch step does with the text of the latest message: it
    returns it when the line that shows it can be logged, and raises the
    error of the log otherwise. *)
Lemma fetch_returns_text (channel : pystr)
    (response messages first text : pyval) :
  forallb encodable channel = true ->
  conversations_history w (slack_client g) channel 1 true = Ok response ->
  subscript_str response (u "messages") = Ok messages ->
  subscript_int messages 0 = Ok first ->
  subscript_str first (u "text") = Ok text ->
  forallb encodable (py_str lib text) = true ->
  get_latest_message_from_slack lib w g channel
  = ([EvPrint (u "Fetching message from channel: " ++ channel);
      fetch_call g channel;
      EvPrint (u "Found message: " ++ py_str lib text)], Ok text).
Proof.
  intros Hch Hcall Hmsgs Hfirst Htext Henc.
  unfold get_latest_message_from_slack, fetch_call.
  rewrite (print_ok (u "Fetching message from channel: " ++ channel))
    by (rewrite forallb_app, Hch; reflexivity).
  unfold bind, try_except, emit, lift, raise, ret.
  cbn. rewrite Hcall. cbn. rewrite Hmsgs. cbn.
  rewrite (subscript_int_truthy _ _ _ Hfirst). cbn. rewrite Hfirst.
  cbn. rewrite Htext. cbn.
  rewrite (print_ok (u "Found message: " ++ py_str lib text))
    by (rewrite forallb_app, Henc; reflexivity).
  reflexivity.
Qed.

Lemma fetch_text_not_logged (channel : pystr)
    (response messages first text : pyval) (err : exc) :
  forallb encodable channel = true ->
  conversations_history w (slack_client g) channel 1 true = Ok response ->
  subscript_str response (u "messages") = Ok messages ->
  subscript_int messages 0 = Ok first ->
  subscript_str first (u "text") = Ok text ->
  stdout_error (u "Found message: " ++ py_str lib text) = Some err ->
  get_latest_message_from_slack lib w g channel
  = ([EvPrint (u "Fetching message from channel: " ++ channel);
      fetch_call g channel], Raise err).
Proof.
  intros Hch Hcall Hmsgs Hfirst Htext Herr.
  destruct (stdout_error_is_loggable _ _ Herr) as (_ & Hslack & _).
  unfold get_latest_message_from_slack, fetch_call.
  rewrite (print_ok (u "Fetching message from channel: " ++ channel))
    by (rewrite forallb_app, Hch; reflexivity).
  unfold bind, try_except, emit, lift, raise, ret.
  cbn. rewrite Hcall. cbn. rewrite Hmsgs. cbn.
  rewrite (subscript_int_truthy _ _ _ Hfirst). cbn. rewrite Hfirst.
  cbn. rewrite Htext. cbn.
  rewrite (print_fails _ _ Herr). cbn. rewrite Hslack. reflexivity.
Qed.


Lemma fetch_call_raises_masked (channel : pystr) (e e' : exc) :
  forallb encodable channel = true ->
  conversations_history w (slack_client g) channel 1 true = Raise e ->
  is_SlackApiError e = true ->
  subscript_str (exc_response e) (u "error") = Raise e' ->
  get_latest_message_from_slack lib w g channel
  = ([EvPrint (u "Fetching message from channel: " ++ channel);
      fetch_call g channel], Raise e').
Proof.
  intros Hch Hcall Hslack Herr.
  unfold get_latest_message_from_slack, fetch_call.
  rewrite (print_ok (u "Fetching message from channel: " ++ channel))
    by (rewrite forallb_app, Hch; reflexivity).
  unfold bind, try_except, emit, lift, raise, ret.
  cbn. rewrite Hcall. cbn. rewrite Hslack, Herr. reflexivity.
Qed.


End StepFacts.

Section MoreStepFacts.

Variable lib : PyLib.
Variable w : World.
Variable g : Globals.

(** *** The inference step *)

Lemma json_dumps_request (text : pyval) :
  json_dumps (request_for (prompt_for lib text)) = Ok (request_body lib text).
Proof. reflexivity. Qed.

(** The inference step makes the model call first, then at most the read of
    the response body; it posts nothing. *)
Lemma inference_remote_calls (text : pyval) :
  exists rest,
    remote_calls (trace (invoke_bedrock_model lib w g text))
    = inference_call g (request_body lib text) :: rest
    /\ (rest = [] \/ exists h, rest = [EvStreamRead h]).
Proof.
  unfold invoke_bedrock_model, inference_call.
  rewrite json_dumps_request.
  rewrite (print_ok (u "Invoking Bedrock model (Claude 3.7 Sonnet)..."))
    by reflexivity.
  unfold py_read, bind, try_except, emit, lift, raise, ret, trace.
  run_step; eexists; (split; [reflexivity|]); eauto.
Qed.

(** An error that leaves the inference step and derives from [Exception]
    can be logged: the step has logged it, or it is the error of a log. *)
Lemma inference_error_is_loggable (text : pyval) (t : list event) (e : exc) :
  invoke_bedrock_model lib w g text = (t, Raise e) ->
  is_Exception e = true ->
  forallb encodable (exc_str e) = true.
Proof.
  unfold invoke_bedrock_model.
  rewrite json_dumps_request.
  rewrite (print_ok (u "Invoking Bedrock model (Claude 3.7 Sonnet)..."))
    by reflexivity.
  unfold bind at 1. unfold lift at 1. unfold bind at 1.
  match goal with
  | |- context [try_except ?m is_Exception ?h] =>
      destruct (try_except m is_Exception h) as [t' r'] eqn:Htry
  end.
  intros [= _ ->]. exact (logged_and_raised _ _ _ _ Htry).
Qed.

(** What the inference step returns, once the model call has answered and
    the body of the answer has been read. *)
Lemma inference_after_read (text response : pyval) (h : N)
    (raw : list Byte.byte) :
  invoke_model w (bedrock_runtime g) (request_body lib text) MODEL_ID
    (u "application/json") (u "application/json") = Ok response ->
  py_get response (u "body") = Ok (PStreamingBody h) ->
  stream_read w h = Ok raw ->
  returned (invoke_bedrock_model lib w g text)
  = match extract_summary lib raw with
    | Ok summary =>
        match
          stdout_error
            (u "Successfully got summary from Bedrock: " ++ py_str lib summary)
        with
        | None => Ok summary
        | Some err => Raise err
        end
    | Raise e =>
        if is_Exception e
        then Raise (raised_after_log (u "Bedrock invocation error: "
                                        ++ exc_str e) e)
        else Raise e
    end.
Proof.
  intros Hcall Hbody Hread.
  unfold invoke_bedrock_model, extract_summary.
  rewrite json_dumps_request.
  rewrite (print_ok (u "Invoking Bedrock model (Claude 3.7 Sonnet)..."))
    by reflexivity.
  unfold py_read, bind, bind_result, try_except, emit, lift, raise,
    ret, returned, raised_after_log.
  cbn. rewrite Hcall. cbn. rewrite Hbody. cbn. rewrite Hread. cbn.
  destruct (json_loads lib raw) as [rb|e]; cbn.
  - destruct (py_get rb (u "content")) as [c|e]; cbn.
    + destruct (subscript_int c 0) as [seg|e]; cbn.
      * destruct (py_get seg (u "text")) as [s|e]; cbn.
        -- destruct (print_cases
                       (u "Successfully got summary from Bedrock: "
                          ++ py_str lib s))
             as [[Henc ->]|(err & Herr & ->)]; cbn.
           ++ now rewrite (stdout_accepts _ Henc).
           ++ rewrite Herr.
              destruct (stdout_error_is_loggable _ _ Herr)
                as (Hexc & _ & Hlog).
              rewrite Hexc.
              rewrite (print_ok (u "Bedrock invocation error: "
                                   ++ exc_str err))
                by (rewrite forallb_app, Hlog; reflexivity).
              reflexivity.
        -- destruct (is_Exception e); [|reflexivity].
           unfold print. now destruct (stdout_error _).
      * destruct (is_Exception e); [|reflexivity].
        unfold print. now destruct (stdout_error _).
    + destruct (is_Exception e); [|reflexivity].
      unfold print. now destruct (stdout_error _).
  - destruct (is_Exception e); [|reflexivity].
    unfold print. now destruct (stdout_error _).
Qed.


(** *** The post step *)

Lemma post_remote_calls (channel text : pystr) :
  forallb encodable channel = true ->
  remote_calls (trace (post_message_to_slack lib w g channel text))
  = [EvChatPostMessage (slack_client g) channel text].
Proof.
  intros Hch.
  unfold post_message_to_slack.
  rewrite (print_ok (u "Posting message to channel: " ++ channel))
    by (rewrite forallb_app, Hch; reflexivity).
  unfold bind, try_except, emit, lift, raise, ret, trace.
  run_step; reflexivity.
Qed.

Lemma post_call_raises_same (channel text : pystr) (e : exc) :
  forallb encodable channel = true ->
  chat_postMessage w (slack_client g) channel text = Raise e ->
  logs_slack_error lib (u "Slack API Error (post): ") e ->
  returned (post_message_to_slack lib w g channel text) = Raise e.
Proof.
  intros Hch Hcall Hsame.
  unfold post_message_to_slack.
  rewrite (print_ok (u "Posting message to channel: " ++ channel))
    by (rewrite forallb_app, Hch; reflexivity).
  unfold bind, try_except, emit, lift, raise, ret, returned.
  cbn. rewrite Hcall. cbn.
  destruct (is_SlackApiError e) eqn:Hslack; [|reflexivity].
  destruct Hsame as [H|(code & -> & Henc)]; [congruence|].
  cbn. now rewrite (print_ok _ Henc).
Qed.

Lemma post_returns (channel text : pystr) (answer : pyval) :
  forallb encodable channel = true ->
  chat_postMessage w (slack_client g) channel text = Ok answer ->
  returned (post_message_to_slack lib w g channel text) = Ok PNone.
Proof.
  intros Hch Hcall.
  unfold post_message_to_slack.
  rewrite (print_ok (u "Posting message to channel: " ++ channel))
    by (rewrite forallb_app, Hch; reflexivity).
  unfold bind, try_except, emit, lift, raise, ret, returned.
  cbn. rewrite Hcall. cbn.
  rewrite (print_ok (u "Successfully posted message to Slack."))
    by reflexivity.
  reflexivity.
Qed.

End MoreStepFacts.

(** ** The handler, by the outcome of its steps *)

Section HandlerFacts.

Variable lib : PyLib.
Variable w : World.
Variable g : Globals.

Lemma body_fetch_raises t e :
  fetch_step lib w g = (t, Raise e) -> handler_body lib w g = (t, Raise e).
Proof.
  unfold fetch_step, handler_body, bind. now intros ->.
Qed.

Lemma body_no_message t m :
  fetch_step lib w g = (t, Ok m) -> truthy m = false ->
  handler_body lib w g
  = (t ++ [EvPrint (u "--- End Execution: No message found ---")],
     Ok {| statusCode := 200; body := NO_OP_BODY |}).
Proof.
  unfold fetch_step, handler_body, bind. intros -> ->.
  cbn [negb]. rewrite print_ok by reflexivity. reflexivity.
Qed.

Lemma body_summarize_raises t m t2 e :
  fetch_step lib w g = (t, Ok m) -> truthy m = true ->
  summarize_step lib w g m = (t2, Raise e) ->
  handler_body lib w g = (t ++ t2, Raise e).
Proof.
  unfold fetch_step, summarize_step, handler_body, bind.
  intros -> -> ->. reflexivity.
Qed.

Lemma body_post_raises t m t2 s t3 e :
  fetch_step lib w g = (t, Ok m) -> truthy m = true ->
  summarize_step lib w g m = (t2, Ok s) ->
  post_step lib w g s = (t3, Raise e) ->
  handler_body lib w g = (t ++ t2 ++ t3, Raise e).
Proof.
  unfold fetch_step, summarize_step, post_step, result_text_for,
    handler_body, bind.
  intros -> -> -> ->. reflexivity.
Qed.

Lemma body_success t m t2 s t3 r :
  fetch_step lib w g = (t, Ok m) -> truthy m = true ->
  summarize_step lib w g m = (t2, Ok s) ->
  post_step lib w g s = (t3, Ok r) ->
  handler_body lib w g
  = (t ++ t2 ++ t3 ++ [EvPrint (u "--- End Execution: Success ---")],
     Ok {| statusCode := 200; body := SUCCESS_BODY |}).
Proof.
  unfold fetch_step, summarize_step, post_step, result_text_for,
    handler_body, bind.
  intros -> -> -> ->.
  cbn [negb]. rewrite print_ok by reflexivity. reflexivity.
Qed.


Lemma handler_returns t o event context :
  handler_body lib w g = (t, Ok o) ->
  lambda_handler lib w g event context = (START :: t, Ok o).
Proof.
  unfold lambda_handler. rewrite print_ok by reflexivity.
  unfold bind, try_except. now intros ->.
Qed.

(** The clause of the handler: an exception that derives from [Exception]
    becomes the failure outcome when its description can be logged; the
    error of the log leaves the handler otherwise. *)
Lemma handler_catches t e event context :
  handler_body lib w g = (t, Raise e) -> is_Exception e = true ->
  forallb encodable (exc_str e) = true ->
  lambda_handler lib w g event context
  = (START :: t
       ++ [EvPrint (u "An unexpected error occurred: " ++ exc_str e);
           EvPrint (u "--- End Execution: Error ---")],
     Ok {| statusCode := 500; body := failure_body e |}).
Proof.
  unfold lambda_handler. rewrite print_ok by reflexivity.
  unfold bind at 1. unfold try_except. intros -> -> Henc.
  rewrite (print_ok (u "An unexpected error occurred: " ++ exc_str e))
    by (rewrite forallb_app, Henc; reflexivity).
  unfold bind at 1.
  rewrite (print_ok (u "--- End Execution: Error ---")) by reflexivity.
  reflexivity.
Qed.

Lemma handler_log_fails t e err event context :
  handler_body lib w g = (t, Raise e) -> is_Exception e = true ->
  stdout_error (u "An unexpected error occurred: " ++ exc_str e) = Some err ->
  lambda_handler lib w g event context = (START :: t, Raise err).
Proof.
  unfold lambda_handler. rewrite print_ok by reflexivity.
  unfold bind at 1. unfold try_except. intros -> -> Herr.
  rewrite (print_fails _ _ Herr). cbn. now rewrite app_nil_r.
Qed.

Lemma handler_lets_through t e event context :
  handler_body lib w g = (t, Raise e) -> is_Exception e = false ->
  lambda_handler lib w g event context = (START :: t, Raise e).
Proof.
  unfold lambda_handler. rewrite print_ok by reflexivity.
  unfold bind, try_except. now intros -> ->.
Qed.

(** The handler caught [e]: what it returns, or raises. *)
Lemma handler_catches_or_fails t e event context :
  handler_body lib w g = (t, Raise e) -> is_Exception e = true ->
  returned (lambda_handler lib w g event context)
  = match stdout_error (u "An unexpected error occurred: " ++ exc_str e) with
    | None => Ok {| statusCode := 500; body := failure_body e |}
    | Some err => Raise err
    end.
Proof.
  intros Hbody He.
  destruct (stdout_error (u "An unexpected error occurred: " ++ exc_str e))
    as [err|] eqn:Herr.
  - now rewrite (handler_log_fails _ _ _ event context Hbody He Herr).
  - rewrite (handler_catches _ _ event context Hbody He); [reflexivity|].
    destruct (forallb encodable (exc_str e)) eqn:Henc; [reflexivity|].
    assert (H : forallb encodable
                  (u "An unexpected error occurred: " ++ exc_str e) = false)
      by (rewrite forallb_app, Henc; reflexivity).
    destruct (stdout_refuses _ H) as (err & Herr'). congruence.
Qed.

End HandlerFacts.

Lemma remote_calls_app (a b : list event) :
  remote_calls (a ++ b) = remote_calls a ++ remote_calls b.
Proof. apply filter_app. Qed.

(** A predicate that holds of no log line sees the same events in a trace
    and in its remote calls. *)
Lemma filter_remote_calls (p : event -> bool) (t : list event) :
  (forall ev, is_print ev = true -> p ev = false) ->
  filter p (remote_calls t) = filter p t.
Proof.
  intros Hp. unfold remote_calls.
  induction t as [|ev t IH]; [reflexivity|]. simpl.
  destruct (is_print ev) eqn:Hev; simpl.
  - now rewrite (Hp ev Hev).
  - now rewrite IH.
Qed.

Lemma count_remote_calls (p : event -> bool) (t : list event) :
  (forall ev, is_print ev = true -> p ev = false) ->
  count p t = count p (remote_calls t).
Proof.
  intros Hp. unfold count. now rewrite filter_remote_calls.
Qed.

Lemma in_remote_calls (ev : event) (t : list event) :
  In ev (remote_calls t) -> In ev t.
Proof. unfold remote_calls. intros H. now apply filter_In in H. Qed.

Lemma print_not_inference ev : is_print ev = true -> is_inference_call ev = false.
Proof. now destruct ev. Qed.
Lemma print_not_post ev : is_print ev = true -> is_post_call ev = false.
Proof. now destruct ev. Qed.
Lemma print_not_fetch ev : is_print ev = true -> is_fetch_call ev = false.
Proof. now destruct ev. Qed.
Lemma print_not_environ ev : is_print ev = true -> is_environ_read ev = false.
Proof. now destruct ev. Qed.

Lemma remote_calls_print (line : pystr) (t : list event) :
  remote_calls (EvPrint line :: t) = remote_calls t.
Proof. reflexivity. Qed.

Lemma returned_step {A} (m : M A) (r : result A) :
  returned m = r -> exists t, m = (t, r).
Proof. destruct m as [t r']. intros <-. now exists t. Qed.

Lemma stdout_error_none (line : pystr) :
  stdout_error line = None -> forallb encodable line = true.
Proof.
  intros H. destruct (forallb encodable line) eqn:E; [reflexivity|].
  destruct (stdout_refuses _ E) as (e & He). congruence.
Qed.

(** ** The remote calls of one invocation *)

Section RunFacts.

Variable lib : PyLib.
Variable w : World.
Variable g : Globals.
Variables event context : pyval.

Let run := lambda_handler lib w g event context.

Lemma run_calls_are_body_calls :
  remote_calls (trace run) = remote_calls (trace (handler_body lib w g)).
Proof.
  subst run.
  destruct (handler_body lib w g) as [t [o|e]] eqn:Hbody.
  - now rewrite (handler_returns lib w g t o event context Hbody).
  - destruct (is_Exception e) eqn:He.
    + destruct (stdout_error (u "An unexpected error occurred: "
                                ++ exc_str e)) as [err|] eqn:Herr.
      * now rewrite (handler_log_fails lib w g t e err event context
                       Hbody He Herr).
      * apply stdout_error_none, encodable_app in Herr as [_ Henc].
        rewrite (handler_catches lib w g t e event context Hbody He Henc).
        unfold trace, fst, START.
        rewrite remote_calls_print, remote_calls_app. apply app_nil_r.
    + now rewrite (handler_lets_through lib w g t e event context Hbody He).
Qed.

Lemma fetch_step_calls t r :
  fetch_step lib w g = (t, r) ->
  remote_calls t = [fetch_call g INPUT_CHANNEL_ID].
Proof.
  intros H.
  pose proof (fetch_remote_calls lib w g INPUT_CHANNEL_ID eq_refl) as Hc.
  unfold fetch_step in H. now rewrite H in Hc.
Qed.

Lemma post_step_calls s t r :
  post_step lib w g s = (t, r) ->
  remote_calls t = [post_call g (result_text_for lib s)].
Proof.
  intros H.
  pose proof (post_remote_calls lib w g OUTPUT_CHANNEL_ID
                (result_text_for lib s) eq_refl) as Hc.
  unfold post_step in H. now rewrite H in Hc.
Qed.

Lemma summarize_step_calls m t r :
  summarize_step lib w g m = (t, r) ->
  exists rest,
    remote_calls t = inference_call g (request_body lib m) :: rest
    /\ (rest = [] \/ exists h, rest = [EvStreamRead h]).
Proof.
  intros H.
  destruct (inference_remote_calls lib w g m) as (rest & Hc & Hrest).
  unfold summarize_step in H. rewrite H in Hc. now exists rest.
Qed.

Lemma calls_when_fetch_raises t e :
  fetch_step lib w g = (t, Raise e) ->
  remote_calls (trace run) = [fetch_call g INPUT_CHANNEL_ID].
Proof.
  intros Hf. rewrite run_calls_are_body_calls.
  rewrite (body_fetch_raises _ _ _ _ _ Hf).
  exact (fetch_step_calls _ _ Hf).
Qed.

Lemma calls_when_no_message t m :
  fetch_step lib w g = (t, Ok m) -> truthy m = false ->
  remote_calls (trace run) = [fetch_call g INPUT_CHANNEL_ID].
Proof.
  intros Hf Hm. rewrite run_calls_are_body_calls.
  rewrite (body_no_message _ _ _ _ _ Hf Hm).
  unfold trace; simpl. rewrite remote_calls_app.
  rewrite (fetch_step_calls _ _ Hf). reflexivity.
Qed.

Lemma calls_when_summarize_raises t m t2 e :
  fetch_step lib w g = (t, Ok m) -> truthy m = true ->
  summarize_step lib w g m = (t2, Raise e) ->
  remote_calls (trace run) = fetch_call g INPUT_CHANNEL_ID :: remote_calls t2.
Proof.
  intros Hf Hm Hs. rewrite run_calls_are_body_calls.
  rewrite (body_summarize_raises _ _ _ _ _ _ _ Hf Hm Hs).
  unfold trace; simpl. rewrite remote_calls_app.
  rewrite (fetch_step_calls _ _ Hf). reflexivity.
Qed.

Lemma calls_when_summarized t m t2 s :
  fetch_step lib w g = (t, Ok m) -> truthy m = true ->
  summarize_step lib w g m = (t2, Ok s) ->
  remote_calls (trace run)
  = fetch_call g INPUT_CHANNEL_ID
      :: remote_calls t2 ++ [post_call g (result_text_for lib s)].
Proof.
  intros Hf Hm Hs. rewrite run_calls_are_body_calls.
  destruct (post_step lib w g s) as [t3 [r|e]] eqn:Hp.
  - rewrite (body_success _ _ _ _ _ _ _ _ _ Hf Hm Hs Hp).
    unfold trace; simpl. rewrite !remote_calls_app.
    rewrite (fetch_step_calls _ _ Hf), (post_step_calls _ _ _ Hp).
    reflexivity.
  - rewrite (body_post_raises _ _ _ _ _ _ _ _ _ Hf Hm Hs Hp).
    unfold trace; simpl. rewrite !remote_calls_app.
    rewrite (fetch_step_calls _ _ Hf), (post_step_calls _ _ _ Hp).
    reflexivity.
Qed.

(** The remote calls of an invocation, exactly. *)
Lemma run_calls_exact :
  remote_calls (trace run) = [fetch_call g INPUT_CHANNEL_ID]
  \/ exists message_text reads,
       (reads = [] \/ exists h, reads = [EvStreamRead h])
       /\ (remote_calls (trace run)
           = fetch_call g INPUT_CHANNEL_ID
               :: inference_call g (request_body lib message_text) :: reads
           \/ exists summary,
                remote_calls (trace run)
                = fetch_call g INPUT_CHANNEL_ID
                    :: inference_call g (request_body lib message_text)
                    :: reads ++ [post_call g (result_text_for lib summary)]).
Proof.
  destruct (fetch_step lib w g) as [t [m|e]] eqn:Hf.
  - destruct (truthy m) eqn:Hm.
    + destruct (summarize_step lib w g m) as [t2 [s|e]] eqn:Hs;
        destruct (summarize_step_calls _ _ _ Hs) as (rest & Hc & Hrest).
      * rewrite (calls_when_summarized _ _ _ _ Hf Hm Hs), Hc.
        right. exists m, rest. split; [exact Hrest|].
        right. now exists s.
      * rewrite (calls_when_summarize_raises _ _ _ _ Hf Hm Hs), Hc.
        right. exists m, rest. split; [exact Hrest|]. now left.
    + left. exact (calls_when_no_message _ _ Hf Hm).
  - left. exact (calls_when_fetch_raises _ _ Hf).
Qed.

(** The remote calls of an invocation, one by one. *)
Lemma remote_call_of_a_run ev :
  In ev (remote_calls (trace run)) ->
  ev = fetch_call g INPUT_CHANNEL_ID
  \/ (exists message_text,
        ev = inference_call g (request_body lib message_text))
  \/ (exists h, ev = EvStreamRead h)
  \/ (exists summary, ev = post_call g (result_text_for lib summary)).
Proof.
  intros Hin.
  assert (Hreads : forall reads,
             reads = [] \/ (exists h, reads = [EvStreamRead h]) ->
             In ev reads -> exists h, ev = EvStreamRead h).
  { intros reads [->|(h & ->)] H; [destruct H|].
    destruct H as [<-|[]]. now exists h. }
  destruct run_calls_exact
    as [Hc|(m & reads & Hr & [Hc|(s & Hc)])];
    rewrite Hc in Hin; clear Hc.
  - destruct Hin as [<-|[]]. now left.
  - destruct Hin as [<-|[<-|Hin]]; [now left|right; left; now exists m|].
    right; right; left. exact (Hreads _ Hr Hin).
  - destruct Hin as [<-|[<-|Hin]]; [now left|right; left; now exists m|].
    apply in_app_or in Hin as [Hin|[<-|[]]].
    + right; right; left. exact (Hreads _ Hr Hin).
    + right; right; right. now exists s.
Qed.

(** Every history request of an invocation is the one for the latest
    message of the input channel. *)
Lemma history_requests_of_a_run c ch limit inclusive :
  In (EvConversationsHistory c ch limit inclusive) (trace run) ->
  EvConversationsHistory c ch limit inclusive = fetch_call g INPUT_CHANNEL_ID.
Proof.
  intros Hin.
  assert (Hcall : In (EvConversationsHistory c ch limit inclusive)
                    (remote_calls (trace run))).
  { unfold remote_calls. apply filter_In. now split. }
  destruct (remote_call_of_a_run _ Hcall)
    as [H|[(m & H)|[(h & H)|(s & H)]]];
    [exact H|discriminate H..].
Qed.

Lemma run_reads_no_environ :
  count is_environ_read (trace run) = 0.
Proof.
  rewrite (count_remote_calls _ _ print_not_environ).
  destruct run_calls_exact
    as [Hc|(m & reads & Hr & [Hc|(s & Hc)])];
    rewrite Hc; clear Hc; [reflexivity|..];
    destruct Hr as [->|(h & ->)]; reflexivity.
Qed.

End RunFacts.

(** * The claims of the specification *)

Import Samples.




(** C2, as amended.  When the history call answers and its [messages] are
    empty (or absent), the handler returns status 200 with, as body, the
    JSON string literal of ["No new messages to process."], that is the text
    between two double quote characters; its only remote call is the fetch,
    so neither [invoke_bedrock_model] nor [post_message_to_slack] reaches
    its service. *)
Theorem no_message_gives_no_op_outcome :
  forall lib w g event context response messages,
    conversations_history w (slack_client g) INPUT_CHANNEL_ID 1 true
    = Ok response ->
    subscript_str response (u "messages") = Ok messages ->
    truthy messages = false ->
    let run := lambda_handler lib w g event context in
    returned run
    = Ok {| statusCode := 200;
            body := [DQUOTE] ++ u "No new messages to process." ++ [DQUOTE] |}
    /\ remote_calls (trace run) = [fetch_call g INPUT_CHANNEL_ID]
    /\ count is_inference_call (trace run) = 0
    /\ count is_post_call (trace run) = 0.
Proof.
  intros lib w g event context response messages Hcall Hmsgs Hempty run.
  pose proof (fetch_returns_none lib w g INPUT_CHANNEL_ID _ _ eq_refl Hcall Hmsgs Hempty)
    as Hf.
  fold (fetch_step lib w g) in Hf.
  assert (Hcalls : remote_calls (trace run) = [fetch_call g INPUT_CHANNEL_ID])
    by exact (calls_when_no_message lib w g event context _ _ Hf eq_refl).
  split; [|split; [exact Hcalls|split]].
  - subst run.
    rewrite (handler_returns lib w g _ _ event context
               (body_no_message lib w g _ _ Hf eq_refl)).
    reflexivity.
  - rewrite (count_remote_calls _ _ print_not_inference), Hcalls. reflexivity.
  - rewrite (count_remote_calls _ _ print_not_post), Hcalls. reflexivity.
Qed.

Lemma no_message_gives_no_op_outcome_witness :
  let run := lambda_handler lib0 world_empty g0 PNone PNone in
  returned run
  = Ok {| statusCode := 200;
          body := [DQUOTE] ++ u "No new messages to process." ++ [DQUOTE] |}
  /\ remote_calls (trace run) = [fetch_call g0 INPUT_CHANNEL_ID]
  /\ count is_inference_call (trace run) = 0
  /\ count is_post_call (trace run) = 0.
Proof.
  apply (no_message_gives_no_op_outcome lib0 world_empty g0 PNone PNone
           (history_of []) (PList [])); reflexivity.
Defined.

(** C2, as stated, fails: on an empty channel the body is not the text
    ["No new messages to process."], it is that text between double
    quotes. *)
Lemma no_op_body_is_quoted :
  conversations_history world_empty (slack_client g0) INPUT_CHANNEL_ID 1 true
  = Ok (history_of [])
  /\ returned (lambda_handler lib0 world_empty g0 PNone PNone)
     = Ok {| statusCode := 200; body := NO_OP_BODY |}
  /\ NO_OP_BODY <> u "No new messages to process.".
Proof.
  split; [reflexivity|split; [vm_compute; reflexivity|]].
  vm_compute. discriminate.
Qed.

(** C3.  When the fetched text is ["Team shipped v2 today."] and the
    inference step returns ["- Shipped v2"], the one message posted, to the
    output channel, is the prefix, a line feed, [">>> "] and the summary. *)
Theorem posted_text_for_shipped_v2 :
  forall lib w g event context response messages first,
    conversations_history w (slack_client g) INPUT_CHANNEL_ID 1 true
    = Ok response ->
    subscript_str response (u "messages") = Ok messages ->
    subscript_int messages 0 = Ok first ->
    subscript_str first (u "text") = Ok (PStr (u "Team shipped v2 today.")) ->
    returned (invoke_bedrock_model lib w g (PStr (u "Team shipped v2 today.")))
    = Ok (PStr (u "- Shipped v2")) ->
    filter is_post_call (trace (lambda_handler lib w g event context))
    = [EvChatPostMessage (slack_client g) OUTPUT_CHANNEL_ID
         (u "【AIによる要約】" ++ [LF] ++ u ">>> - Shipped v2")].
Proof.
  intros lib w g event context response messages first
    Hcall Hmsgs Hfirst Htext Hsum.
  pose proof (fetch_returns_text lib w g INPUT_CHANNEL_ID _ _ _ _ eq_refl
                Hcall Hmsgs Hfirst Htext eq_refl)
    as Hf.
  fold (fetch_step lib w g) in Hf.
  apply returned_step in Hsum as (t2 & Hs).
  fold (summarize_step lib w g (PStr (u "Team shipped v2 today."))) in Hs.
  rewrite <- (filter_remote_calls _ _ print_not_post).
  rewrite (calls_when_summarized lib w g event context _ _ _ _ Hf eq_refl Hs).
  destruct (summarize_step_calls lib w g _ _ _ Hs) as (rest & -> & Hrest).
  destruct Hrest as [->|(h & ->)]; reflexivity.
Qed.

Lemma posted_text_for_shipped_v2_witness :
  filter is_post_call
    (trace (lambda_handler lib0 (world_with (u "Team shipped v2 today.")) g0
              PNone PNone))
  = [EvChatPostMessage (slack_client g0) OUTPUT_CHANNEL_ID
       (u "【AIによる要約】" ++ [LF] ++ u ">>> - Shipped v2")].
Proof.
  apply (posted_text_for_shipped_v2 lib0
           (world_with (u "Team shipped v2 today.")) g0 PNone PNone
           (history_of [message (u "Team shipped v2 today.")])
           (PList [message (u "Team shipped v2 today.")])
           (message (u "Team shipped v2 today.")));
    vm_compute; reflexivity.
Defined.




(** C5.  When a message was fetched and the inference step raises an error,
    the handler returns the failure outcome, status 500, and nothing is
    posted. *)
Theorem inference_error_gives_failure_outcome :
  forall lib w g event context message_text e,
    returned (get_latest_message_from_slack lib w g INPUT_CHANNEL_ID)
    = Ok message_text ->
    truthy message_text = true ->
    returned (invoke_bedrock_model lib w g message_text) = Raise e ->
    is_Exception e = true ->
    let run := lambda_handler lib w g event context in
    returned run = Ok {| statusCode := 500; body := failure_body e |}
    /\ count is_post_call (trace run) = 0.
Proof.
  intros lib w g event context m e Hfetch Hm Hsum He run.
  apply returned_step in Hfetch as (t & Hf).
  apply returned_step in Hsum as (t2 & Hs).
  pose proof (inference_error_is_loggable lib w g _ _ _ Hs He) as Henc.
  fold (fetch_step lib w g) in Hf. fold (summarize_step lib w g m) in Hs.
  split.
  - subst run.
    now rewrite (handler_catches lib w g _ _ event context
                   (body_summarize_raises lib w g _ _ _ _ Hf Hm Hs) He Henc).
  - subst run. rewrite (count_remote_calls _ _ print_not_post).
    rewrite (calls_when_summarize_raises lib w g event context _ _ _ _
               Hf Hm Hs).
    destruct (summarize_step_calls lib w g _ _ _ Hs) as (rest & -> & Hrest).
    destruct Hrest as [->|(h & ->)]; reflexivity.
Qed.

Lemma inference_error_gives_failure_outcome_witness :
  let run := lambda_handler lib0 (world_inference_raising throttled) g0
               PNone PNone in
  returned run = Ok {| statusCode := 500; body := failure_body throttled |}
  /\ count is_post_call (trace run) = 0.
Proof.
  apply (inference_error_gives_failure_outcome lib0
           (world_inference_raising throttled) g0 PNone PNone
           (PStr (u "Hello")) throttled); reflexivity.
Defined.

(** C7, as amended.  When a message is fetched, summarized and posted and
    no step raises, the handler returns status 200 and a body that is the
    JSON string literal of ["Successfully processed message."]: the text
    between two double quote characters. *)
Theorem success_outcome :
  forall lib w g event context message_text summary posted,
    returned (get_latest_message_from_slack lib w g INPUT_CHANNEL_ID)
    = Ok message_text ->
    truthy message_text = true ->
    returned (invoke_bedrock_model lib w g message_text) = Ok summary ->
    returned (post_message_to_slack lib w g OUTPUT_CHANNEL_ID
                (u "【AIによる要約】" ++ [LF] ++ u ">>> " ++ py_str lib summary))
    = Ok posted ->
    returned (lambda_handler lib w g event context)
    = Ok {| statusCode := 200;
            body := [DQUOTE] ++ u "Successfully processed message."
                      ++ [DQUOTE] |}.
Proof.
  intros lib w g event context m s r Hfetch Hm Hsum Hpost.
  apply returned_step in Hfetch as (t1 & Hf).
  apply returned_step in Hsum as (t2 & Hs).
  apply returned_step in Hpost as (t3 & Hp).
  fold (fetch_step lib w g) in Hf. fold (summarize_step lib w g m) in Hs.
  assert (Hp' : post_step lib w g s = (t3, Ok r))
    by (unfold post_step, result_text_for, PREFIX; exact Hp).
  now rewrite (handler_returns lib w g _ _ event context
                 (body_success lib w g _ _ _ _ _ _ Hf Hm Hs Hp')).
Qed.

Lemma success_outcome_witness :
  returned (lambda_handler lib0 (world_with (u "Hello")) g0 PNone PNone)
  = Ok {| statusCode := 200;
          body := [DQUOTE] ++ u "Successfully processed message."
                    ++ [DQUOTE] |}.
Proof.
  apply (success_outcome lib0 (world_with (u "Hello")) g0 PNone PNone
           (PStr (u "Hello")) (PStr (u "- Shipped v2")) PNone);
    vm_compute; reflexivity.
Defined.

(** C7, as stated, fails: after a message was fetched, summarized and
    posted, the body has two characters more than
    ["Successfully processed message."], the double quotes around it. *)
Lemma success_body_is_quoted :
  returned (lambda_handler lib0 (world_with (u "Hello")) g0 PNone PNone)
  = Ok {| statusCode := 200; body := SUCCESS_BODY |}
  /\ SUCCESS_BODY <> u "Successfully processed message."
  /\ List.length SUCCESS_BODY
     = 2 + List.length (u "Successfully processed message.").
Proof.
  split; [vm_compute; reflexivity|split; [|reflexivity]].
  vm_compute. discriminate.
Qed.

(** C10.  When the latest message exists and its text is the empty string,
    the handler does what it does on an empty channel: it returns status 200
    with the no-op body, and its only remote call is the fetch. *)
Theorem empty_text_is_a_no_op :
  forall lib w g event context response messages first,
    conversations_history w (slack_client g) INPUT_CHANNEL_ID 1 true
    = Ok response ->
    subscript_str response (u "messages") = Ok messages ->
    subscript_int messages 0 = Ok first ->
    subscript_str first (u "text") = Ok (PStr []) ->
    let run := lambda_handler lib w g event context in
    returned run = Ok {| statusCode := 200; body := NO_OP_BODY |}
    /\ remote_calls (trace run) = [fetch_call g INPUT_CHANNEL_ID]
    /\ count is_inference_call (trace run) = 0
    /\ count is_post_call (trace run) = 0
    /\ (forall w' response' messages',
          conversations_history w' (slack_client g) INPUT_CHANNEL_ID 1 true
          = Ok response' ->
          subscript_str response' (u "messages") = Ok messages' ->
          truthy messages' = false ->
          returned (lambda_handler lib w' g event context) = returned run).
Proof.
  intros lib w g event context response messages first
    Hcall Hmsgs Hfirst Htext run.
  pose proof (fetch_returns_text lib w g INPUT_CHANNEL_ID _ _ _ _ eq_refl
                Hcall Hmsgs Hfirst Htext eq_refl)
    as Hf.
  fold (fetch_step lib w g) in Hf.
  assert (Hcalls : remote_calls (trace run) = [fetch_call g INPUT_CHANNEL_ID])
    by exact (calls_when_no_message lib w g event context _ _ Hf eq_refl).
  assert (Hrun : returned run
                 = Ok {| statusCode := 200; body := NO_OP_BODY |}).
  { subst run.
    now rewrite (handler_returns lib w g _ _ event context
                   (body_no_message lib w g _ _ Hf eq_refl)). }
  split; [exact Hrun|split; [exact Hcalls|split; [|split]]].
  - rewrite (count_remote_calls _ _ print_not_inference), Hcalls. reflexivity.
  - rewrite (count_remote_calls _ _ print_not_post), Hcalls. reflexivity.
  - intros w' response' messages' Hcall' Hmsgs' Hempty'.
    pose proof (fetch_returns_none lib w' g INPUT_CHANNEL_ID _ _ eq_refl
                  Hcall' Hmsgs' Hempty')
      as Hf'.
    fold (fetch_step lib w' g) in Hf'.
    rewrite Hrun.
    now rewrite (handler_returns lib w' g _ _ event context
                   (body_no_message lib w' g _ _ Hf' eq_refl)).
Qed.

Lemma empty_text_is_a_no_op_witness :
  let run := lambda_handler lib0 (world_with []) g0 PNone PNone in
  returned run = Ok {| statusCode := 200; body := NO_OP_BODY |}
  /\ remote_calls (trace run) = [fetch_call g0 INPUT_CHANNEL_ID]
  /\ count is_inference_call (trace run) = 0
  /\ count is_post_call (trace run) = 0
  /\ returned (lambda_handler lib0 world_empty g0 PNone PNone) = returned run.
Proof.
  destruct (empty_text_is_a_no_op lib0 (world_with []) g0 PNone PNone
              (history_of [message []]) (PList [message []]) (message [])
              eq_refl eq_refl eq_refl eq_refl)
    as (Hrun & Hcalls & Hinf & Hpost & Hsame).
  split; [exact Hrun|split; [exact Hcalls|split; [exact Hinf|]]].
  split; [exact Hpost|].
  apply (Hsame world_empty (history_of []) (PList [])); reflexivity.
Defined.

(** C8.  When the latest message of the channel is ["Hello"]: the history
    request of the invocation asks for one message; the model is called with
    a request whose prompt contains ["Hello"], and so does the request as it
    is sent; and once the inference step has returned a summary, the one
    message posted, to the output channel, begins with the prefix and
    contains the summary as it was returned. *)
Theorem hello_is_summarized_and_posted :
  forall lib w g event context response messages first,
    conversations_history w (slack_client g) INPUT_CHANNEL_ID 1 true
    = Ok response ->
    subscript_str response (u "messages") = Ok messages ->
    subscript_int messages 0 = Ok first ->
    subscript_str first (u "text") = Ok (PStr (u "Hello")) ->
    let run := lambda_handler lib w g event context in
    let prompt := prompt_for lib (PStr (u "Hello")) in
    (In (EvConversationsHistory (slack_client g) INPUT_CHANNEL_ID 1 true)
       (trace run)
     /\ forall c ch limit inclusive,
          In (EvConversationsHistory c ch limit inclusive) (trace run) ->
          limit = 1%Z)
    /\ (exists request,
          json_dumps (request_for prompt) = Ok request
          /\ In (EvInvokeModel (bedrock_runtime g) request MODEL_ID
                   (u "application/json") (u "application/json")) (trace run)
          /\ substring_of (u "Hello") prompt
          /\ substring_of (u "Hello") request)
    /\ (forall summary,
          returned (invoke_bedrock_model lib w g (PStr (u "Hello")))
          = Ok summary ->
          exists text,
            filter is_post_call (trace run)
            = [EvChatPostMessage (slack_client g) OUTPUT_CHANNEL_ID text]
            /\ begins_with text (u "【AIによる要約】")
            /\ substring_of (py_str lib summary) text
            /\ forall s, summary = PStr s -> substring_of s text).
Proof.
  intros lib w g event context response messages first
    Hcall Hmsgs Hfirst Htext run prompt.
  pose proof (fetch_returns_text lib w g INPUT_CHANNEL_ID _ _ _ _ eq_refl
                Hcall Hmsgs Hfirst Htext eq_refl)
    as Hf.
  fold (fetch_step lib w g) in Hf.
  destruct (summarize_step lib w g (PStr (u "Hello"))) as [t2 r2] eqn:Hs.
  destruct (summarize_step_calls lib w g _ _ _ Hs) as (rest & Hc2 & Hrest).
  assert (Hhead : exists tail,
             remote_calls (trace run)
             = fetch_call g INPUT_CHANNEL_ID
                 :: inference_call g
                      (request_body lib (PStr (u "Hello"))) :: tail).
  { subst run. destruct r2 as [s|e].
    - rewrite (calls_when_summarized lib w g event context _ _ _ _
                 Hf eq_refl Hs), Hc2.
      eexists. reflexivity.
    - rewrite (calls_when_summarize_raises lib w g event context _ _ _ _
                 Hf eq_refl Hs), Hc2.
      eexists. reflexivity. }
  destruct Hhead as (tail & Hhead).
  split; [split|split].
  - apply in_remote_calls. rewrite Hhead. now left.
  - intros c ch limit inclusive Hin.
    apply history_requests_of_a_run in Hin. now injection Hin.
  - exists (request_body lib (PStr (u "Hello"))).
    split; [apply json_dumps_request|split; [|split]].
    + apply in_remote_calls. rewrite Hhead. right; now left.
    + apply contains_sound. vm_compute. reflexivity.
    + apply contains_sound. vm_compute. reflexivity.
  - intros summary Hsum.
    pose proof Hs as Hs'. unfold summarize_step in Hs'.
    rewrite Hs' in Hsum. unfold returned, snd in Hsum. subst r2.
    exists (result_text_for lib summary).
    split; [|split; [|split]].
    + subst run. rewrite <- (filter_remote_calls _ _ print_not_post).
      rewrite (calls_when_summarized lib w g event context _ _ _ _
                 Hf eq_refl Hs), Hc2.
      destruct Hrest as [->|(h & ->)]; reflexivity.
    + unfold result_text_for, PREFIX. eexists. reflexivity.
    + exists (PREFIX ++ [LF] ++ u ">>> "), [].
      unfold result_text_for. now rewrite app_nil_r, <- !app_assoc.
    + intros s ->.
      exists (PREFIX ++ [LF] ++ u ">>> "), [].
      unfold result_text_for. now rewrite app_nil_r, <- !app_assoc.
Qed.

Lemma hello_is_summarized_and_posted_witness :
  let run := lambda_handler lib0 (world_with (u "Hello")) g0 PNone PNone in
  (forall c ch limit inclusive,
      In (EvConversationsHistory c ch limit inclusive) (trace run) ->
      limit = 1%Z)
  /\ (exists request,
        In (EvInvokeModel (bedrock_runtime g0) request MODEL_ID
              (u "application/json") (u "application/json")) (trace run)
        /\ substring_of (u "Hello") request)
  /\ (exists text,
        filter is_post_call (trace run)
        = [EvChatPostMessage (slack_client g0) OUTPUT_CHANNEL_ID text]
        /\ begins_with text (u "【AIによる要約】")
        /\ substring_of (u "- Shipped v2") text).
Proof.
  destruct (hello_is_summarized_and_posted lib0 (world_with (u "Hello")) g0
              PNone PNone
              (history_of [message (u "Hello")])
              (PList [message (u "Hello")]) (message (u "Hello"))
              eq_refl eq_refl eq_refl eq_refl)
    as ((_ & Hlimit) & (request & _ & Hin & _ & Hreq) & Hpost).
  split; [exact Hlimit|split].
  - exists request. now split.
  - destruct (Hpost (PStr (u "- Shipped v2")) eq_refl)
      as (text & Hposted & Hprefix & _ & Hverbatim).
    exists text. split; [exact Hposted|split; [exact Hprefix|]].
    now apply Hverbatim.
Defined.

(** ** The decoded answer of the model *)






(** ** Start-up *)

Lemma module_init_reads_token_once environ :
  exists r, module_init environ = ([EvEnviron (u "SLACK_BOT_TOKEN")], r).
Proof.
  unfold module_init, os_environ, bind, try_except, emit, raise, ret.
  destruct (environ_lookup environ (u "SLACK_BOT_TOKEN"));
    cbn; eexists; reflexivity.
Qed.

Lemma module_init_with_token environ tok :
  environ_lookup environ (u "SLACK_BOT_TOKEN") = Some tok ->
  module_init environ = ([EvEnviron (u "SLACK_BOT_TOKEN")], Ok tok).
Proof.
  intros H.
  unfold module_init, os_environ, bind, try_except, emit, raise, ret.
  rewrite H. reflexivity.
Qed.

Lemma module_import_reads_token_once lib environ :
  exists r,
    module_import lib environ = ([EvEnviron (u "SLACK_BOT_TOKEN")], r).
Proof.
  unfold module_import, module_clients, module_init, os_environ, bind,
    try_except, emit, lift, raise, ret.
  destruct (environ_lookup environ (u "SLACK_BOT_TOKEN")); cbn;
    [|eexists; reflexivity].
  destruct (boto3_client lib _ _); eexists; reflexivity.
Qed.

Lemma module_init_without_token environ :
  environ_lookup environ (u "SLACK_BOT_TOKEN") = None ->
  module_init environ
  = ([EvEnviron (u "SLACK_BOT_TOKEN")],
     Raise (mk_exc BareException
              (u "環境変数 `SLACK_BOT_TOKEN` が設定されていません。") PNone)).
Proof.
  intros H.
  unfold module_init, os_environ, bind, try_except, emit, raise, ret.
  rewrite H. reflexivity.
Qed.

Lemma serve_reads_no_environ lib g worlds :
  count is_environ_read (fst (serve lib g worlds)) = 0.
Proof.
  induction worlds as [|w rest IH]; [reflexivity|]. simpl.
  pose proof (run_reads_no_environ lib w g PNone PNone) as Hrun.
  destruct (lambda_handler lib w g PNone PNone) as [t r].
  destruct (serve lib g rest) as [t' rs]. simpl in *.
  unfold count in *. rewrite filter_app, length_app. unfold trace in Hrun.
  simpl in Hrun. now rewrite Hrun, IH.
Qed.

(** C6.  Without the token in the environment, the import of the module
    raises and the process ends there: its trace holds the read of the
    environment and nothing of any invocation.  With or without the token,
    the environment is read once, first, by the import; an invocation never
    reads it. *)
Theorem token_is_read_once_at_startup :
  forall lib environ worlds,
    (environ_lookup environ (u "SLACK_BOT_TOKEN") = None ->
     exists e,
       process lib environ worlds
       = ([EvEnviron (u "SLACK_BOT_TOKEN")], Raise e)
       /\ returned (module_init environ) = Raise e
       /\ is_Exception e = true)
    /\ (exists rest,
          trace (process lib environ worlds)
          = EvEnviron (u "SLACK_BOT_TOKEN") :: rest
          /\ count is_environ_read rest = 0)
    /\ (forall w g event context,
          count is_environ_read
            (trace (lambda_handler lib w g event context)) = 0).
Proof.
  intros lib environ worlds. split; [|split].
  - intros Habsent. eexists. unfold process, module_import.
    rewrite (module_init_without_token _ Habsent).
    split; [reflexivity|split; reflexivity].
  - unfold process.
    destruct (module_import_reads_token_once lib environ) as ([g|e] & ->).
    + pose proof (serve_reads_no_environ lib g worlds) as Hserve.
      destruct (serve lib g worlds) as [t' rs].
      exists t'. split; [reflexivity|exact Hserve].
    + exists []. split; reflexivity.
  - intros w g event context. apply run_reads_no_environ.
Qed.

Lemma token_is_read_once_at_startup_witness :
  (exists e,
      process lib0 [] [world_with (u "Hello"); world_empty]
      = ([EvEnviron (u "SLACK_BOT_TOKEN")], Raise e)
      /\ returned (module_init []) = Raise e
      /\ is_Exception e = true)
  /\ (exists rest,
        trace (process lib0 env0 [world_with (u "Hello"); world_empty])
        = EvEnviron (u "SLACK_BOT_TOKEN") :: rest
        /\ count is_environ_read rest = 0).
Proof.
  split.
  - apply (proj1 (token_is_read_once_at_startup lib0 []
                    [world_with (u "Hello"); world_empty])).
    reflexivity.
  - apply (proj1 (proj2 (token_is_read_once_at_startup lib0 env0
                           [world_with (u "Hello"); world_empty]))).
Defined.

(** * Further properties of the handler *)

(** ** The order of the remote calls *)

(** X1.  No remote call is repeated, and they come in order: an invocation
    makes the history call once, first; the model call at most once, right
    after it; then at most one read of the answer; and the post at most
    once, last, and only after a model call. *)
Theorem remote_calls_happen_once_in_order :
  forall lib w g event context,
    let t := trace (lambda_handler lib w g event context) in
    count is_fetch_call t = 1
    /\ count is_inference_call t <= 1
    /\ count is_post_call t <= count is_inference_call t
    /\ (remote_calls t = [fetch_call g INPUT_CHANNEL_ID]
        \/ exists message_text reads,
             (reads = [] \/ exists h, reads = [EvStreamRead h])
             /\ (remote_calls t
                 = fetch_call g INPUT_CHANNEL_ID
                     :: inference_call g (request_body lib message_text)
                     :: reads
                 \/ exists summary,
                      remote_calls t
                      = fetch_call g INPUT_CHANNEL_ID
                          :: inference_call g (request_body lib message_text)
                          :: reads
                          ++ [post_call g (result_text_for lib summary)])).
Proof.
  intros lib w g event context t. subst t.
  rewrite (count_remote_calls _ _ print_not_fetch),
    (count_remote_calls _ _ print_not_inference),
    (count_remote_calls _ _ print_not_post).
  pose proof (run_calls_exact lib w g event context) as Hexact.
  split; [|split; [|split; [|exact Hexact]]];
    destruct Hexact as [Hc|(m & reads & Hreads & [Hc|(s & Hc)])];
    rewrite Hc; try (cbn; lia);
    destruct Hreads as [->|(h & ->)]; cbn; lia.
Qed.

(** X2.  Whatever the world answers, a message that the handler posts goes
    through the module's Slack client to the output channel, and its text
    starts with the prefix, a line feed and [">>> "]. *)
Theorem posts_go_to_the_output_channel :
  forall lib w g event context c channel text,
    In (EvChatPostMessage c channel text)
      (trace (lambda_handler lib w g event context)) ->
    c = slack_client g
    /\ channel = OUTPUT_CHANNEL_ID
    /\ channel <> INPUT_CHANNEL_ID
    /\ begins_with text (u "【AIによる要約】" ++ [LF] ++ u ">>> ").
Proof.
  intros lib w g event context c channel text Hin.
  assert (Hcall : In (EvChatPostMessage c channel text)
                    (remote_calls
                       (trace (lambda_handler lib w g event context)))).
  { unfold remote_calls. apply filter_In. now split. }
  destruct (remote_call_of_a_run lib w g event context _ Hcall)
    as [H|[(m & H)|[(h & H)|(summary & H)]]];
    unfold fetch_call, inference_call, post_call in H;
    try discriminate H.
  injection H as Hc Hch Htext.
  split; [exact Hc|split; [exact Hch|split]].
  - rewrite Hch. intros Heq. vm_compute in Heq. discriminate.
  - exists (py_str lib summary). rewrite Htext.
    unfold result_text_for, PREFIX. now rewrite <- !app_assoc.
Qed.

Lemma posts_go_to_the_output_channel_witness :
  slack_client g0 = slack_client g0
  /\ OUTPUT_CHANNEL_ID = OUTPUT_CHANNEL_ID
  /\ OUTPUT_CHANNEL_ID <> INPUT_CHANNEL_ID
  /\ begins_with (result_text_for lib0 (PStr (u "- Shipped v2")))
       (u "【AIによる要約】" ++ [LF] ++ u ">>> ").
Proof.
  apply (posts_go_to_the_output_channel lib0 (world_with (u "Hello")) g0
           PNone PNone).
  apply in_remote_calls. vm_compute. do 3 right. left. reflexivity.
Defined.

(** X3.  A message is posted exactly when the fetch step returned a text
    that is true and the inference step returned: then the handler posts
    once, the text built from what the inference step returned; otherwise
    it does not post. *)
Theorem post_happens_iff_summarized :
  forall lib w g event context,
    let run := lambda_handler lib w g event context in
    (count is_post_call (trace run) = 1
     <-> exists message_text summary,
           returned (get_latest_message_from_slack lib w g INPUT_CHANNEL_ID)
           = Ok message_text
           /\ truthy message_text = true
           /\ returned (invoke_bedrock_model lib w g message_text)
              = Ok summary)
    /\ (forall message_text summary,
          returned (get_latest_message_from_slack lib w g INPUT_CHANNEL_ID)
          = Ok message_text ->
          truthy message_text = true ->
          returned (invoke_bedrock_model lib w g message_text) = Ok summary ->
          filter is_post_call (trace run)
          = [post_call g (result_text_for lib summary)])
    /\ (count is_post_call (trace run) <> 1 ->
        filter is_post_call (trace run) = []).
Proof.
  intros lib w g event context run. subst run.
  rewrite (count_remote_calls _ _ print_not_post),
    <- (filter_remote_calls _ _ print_not_post).
  destruct (fetch_step lib w g) as [t [m|e]] eqn:Hf.
  - destruct (truthy m) eqn:Hm.
    + destruct (summarize_step lib w g m) as [t2 [s|e]] eqn:Hs;
        destruct (summarize_step_calls lib w g _ _ _ Hs)
          as (rest & Hc & Hrest).
      * rewrite (calls_when_summarized lib w g event context _ _ _ _
                   Hf Hm Hs), Hc.
        assert (Hposts : filter is_post_call
                           (fetch_call g INPUT_CHANNEL_ID
                              :: (inference_call g (request_body lib m)
                                    :: rest)
                              ++ [post_call g (result_text_for lib s)])
                         = [post_call g (result_text_for lib s)])
          by (destruct Hrest as [->|(h & ->)]; reflexivity).
        unfold fetch_step in Hf. unfold summarize_step in Hs.
        split; [split|split].
        -- intros _. exists m, s. rewrite Hf, Hs. now repeat split.
        -- intros _. unfold count. now rewrite Hposts.
        -- intros m' s' Hf' _ Hs'.
           rewrite Hf in Hf'. injection Hf' as <-.
           rewrite Hs in Hs'. injection Hs' as <-. exact Hposts.
        -- intros Hcount. exfalso. apply Hcount.
           unfold count. now rewrite Hposts.
      * rewrite (calls_when_summarize_raises lib w g event context _ _ _ _
                   Hf Hm Hs), Hc.
        unfold fetch_step in Hf. unfold summarize_step in Hs.
        split; [split|split].
        -- destruct Hrest as [->|(h & ->)]; discriminate.
        -- intros (m' & s' & Hf' & _ & Hs').
           rewrite Hf in Hf'. injection Hf' as <-.
           rewrite Hs in Hs'. discriminate.
        -- intros m' s' Hf' _ Hs'.
           rewrite Hf in Hf'. injection Hf' as <-.
           rewrite Hs in Hs'. discriminate.
        -- intros _. destruct Hrest as [->|(h & ->)]; reflexivity.
    + rewrite (calls_when_no_message lib w g event context _ _ Hf Hm).
      unfold fetch_step in Hf.
      split; [split|split].
      * discriminate.
      * intros (m' & s' & Hf' & Hm' & _).
        rewrite Hf in Hf'. injection Hf' as <-. congruence.
      * intros m' s' Hf' Hm' _.
        rewrite Hf in Hf'. injection Hf' as <-. congruence.
      * reflexivity.
  - rewrite (calls_when_fetch_raises lib w g event context _ _ Hf).
    unfold fetch_step in Hf.
    split; [split|split].
    + discriminate.
    + intros (m' & s' & Hf' & _). rewrite Hf in Hf'. discriminate.
    + intros m' s' Hf' _ _. rewrite Hf in Hf'. discriminate.
    + reflexivity.
Qed.

Lemma post_happens_iff_summarized_witness :
  count is_post_call
    (trace (lambda_handler lib0 (world_with (u "Hello")) g0 PNone PNone)) = 1
  /\ filter is_post_call
       (trace (lambda_handler lib0 (world_with (u "Hello")) g0 PNone PNone))
     = [post_call g0 (result_text_for lib0 (PStr (u "- Shipped v2")))]
  /\ filter is_post_call
       (trace (lambda_handler lib0 world_empty g0 PNone PNone)) = [].
Proof.
  split; [|split].
  - apply (proj2 (proj1 (post_happens_iff_summarized lib0
                           (world_with (u "Hello")) g0 PNone PNone))).
    exists (PStr (u "Hello")), (PStr (u "- Shipped v2")).
    repeat split; vm_compute; reflexivity.
  - apply (proj1 (proj2 (post_happens_iff_summarized lib0
                           (world_with (u "Hello")) g0 PNone PNone))
             (PStr (u "Hello")) (PStr (u "- Shipped v2")));
      vm_compute; reflexivity.
  - apply (proj2 (proj2 (post_happens_iff_summarized lib0 world_empty g0
                           PNone PNone))).
    vm_compute. discriminate.
Defined.


(** X5.  The log of an invocation starts with the start line, and when the
    handler returns it ends with the end line of its outcome: the error
    line for status 500, the no-message line for the no-op body, the
    success line otherwise. *)
Theorem log_is_bracketed :
  forall lib w g event context,
    let run := lambda_handler lib w g event context in
    exists rest,
      trace run = START :: rest
      /\ forall o, returned run = Ok o ->
           exists middle, rest = middle ++ [end_marker o].
Proof.
  intros lib w g event context run. subst run.
  destruct (handler_body lib w g) as [t [o|e]] eqn:Hbody.
  - rewrite (handler_returns lib w g t o event context Hbody).
    exists t. split; [reflexivity|]. intros o' [= <-].
    destruct (fetch_step lib w g) as [t1 [m|e]] eqn:Hf.
    + destruct (truthy m) eqn:Hm.
      * destruct (summarize_step lib w g m) as [t2 [s|e]] eqn:Hs.
        -- destruct (post_step lib w g s) as [t3 [r|e]] eqn:Hp.
           ++ rewrite (body_success lib w g _ _ _ _ _ _ Hf Hm Hs Hp) in Hbody.
              injection Hbody as <- <-.
              exists (t1 ++ t2 ++ t3). now rewrite <- !app_assoc.
           ++ rewrite (body_post_raises lib w g _ _ _ _ _ _ Hf Hm Hs Hp)
                in Hbody.
              discriminate.
        -- rewrite (body_summarize_raises lib w g _ _ _ _ Hf Hm Hs) in Hbody.
           discriminate.
      * rewrite (body_no_message lib w g _ _ Hf Hm) in Hbody.
        injection Hbody as <- <-. now exists t1.
    + rewrite (body_fetch_raises lib w g _ _ Hf) in Hbody. discriminate.
  - destruct (is_Exception e) eqn:He.
    + destruct (stdout_error (u "An unexpected error occurred: "
                                ++ exc_str e)) as [err|] eqn:Herr.
      * rewrite (handler_log_fails lib w g t e err event context
                   Hbody He Herr).
        exists t. split; [reflexivity|]. intros o [=].
      * apply stdout_error_none, encodable_app in Herr as [_ Henc].
        rewrite (handler_catches lib w g t e event context Hbody He Henc).
        eexists. split; [reflexivity|]. intros o [= <-].
        exists (t ++ [EvPrint (u "An unexpected error occurred: "
                                 ++ exc_str e)]).
        now rewrite <- app_assoc.
    + rewrite (handler_lets_through lib w g t e event context Hbody He).
      exists t. split; [reflexivity|]. intros o [=].
Qed.

Lemma log_is_bracketed_witness :
  exists rest,
    trace (lambda_handler lib0 world_empty g0 PNone PNone) = START :: rest
    /\ exists middle, rest = middle ++ [NO_MESSAGE_END].
Proof.
  destruct (log_is_bracketed lib0 world_empty g0 PNone PNone)
    as (rest & Hstart & Hend).
  exists rest. split; [exact Hstart|].
  exact (Hend {| statusCode := 200; body := NO_OP_BODY |} eq_refl).
Defined.

(** ** What [json.dumps] lets through *)

(** X6.  Whatever the handler returns, the status is 200 or 500 and the
    body is a string between double quotes made of printable ASCII only:
    [json.dumps] escapes everything else, also in the description of an
    error. *)
Theorem body_is_a_quoted_ascii_string :
  forall lib w g event context o,
    returned (lambda_handler lib w g event context) = Ok o ->
    (statusCode o = 200%Z \/ statusCode o = 500%Z)
    /\ (exists inner, body o = [DQUOTE] ++ inner ++ [DQUOTE])
    /\ forallb printable_ascii (body o) = true.
Proof.
  intros lib w g event context o Hrun.
  destruct (handler_body lib w g) as [t [o'|e]] eqn:Hbody.
  - rewrite (handler_returns lib w g t o' event context Hbody) in Hrun.
    injection Hrun as ->.
    destruct (fetch_step lib w g) as [t1 [m|e]] eqn:Hf.
    + destruct (truthy m) eqn:Hm.
      * destruct (summarize_step lib w g m) as [t2 [s|e]] eqn:Hs.
        -- destruct (post_step lib w g s) as [t3 [r|e]] eqn:Hp.
           ++ rewrite (body_success lib w g _ _ _ _ _ _ Hf Hm Hs Hp) in Hbody.
              injection Hbody as _ <-.
              split; [now left|split; [|reflexivity]].
              eexists. reflexivity.
           ++ rewrite (body_post_raises lib w g _ _ _ _ _ _ Hf Hm Hs Hp)
                in Hbody.
              discriminate.
        -- rewrite (body_summarize_raises lib w g _ _ _ _ Hf Hm Hs) in Hbody.
           discriminate.
      * rewrite (body_no_message lib w g _ _ Hf Hm) in Hbody.
        injection Hbody as _ <-.
        split; [now left|split; [|reflexivity]].
        eexists. reflexivity.
    + rewrite (body_fetch_raises lib w g _ _ Hf) in Hbody. discriminate.
  - destruct (is_Exception e) eqn:He.
    + rewrite (handler_catches_or_fails lib w g t e event context Hbody He)
        in Hrun.
      destruct (stdout_error _); [discriminate|].
      injection Hrun as <-.
      split; [now right|split].
      * eexists. reflexivity.
      * apply encode_printable.
    + rewrite (handler_lets_through lib w g t e event context Hbody He)
        in Hrun.
      discriminate.
Qed.

Lemma body_is_a_quoted_ascii_string_witness :
  (500 = 200 \/ 500 = 500)%Z
  /\ (exists inner, failure_body slack_error = [DQUOTE] ++ inner ++ [DQUOTE])
  /\ forallb printable_ascii (failure_body slack_error) = true.
Proof.
  apply (body_is_a_quoted_ascii_string lib0 (world_fetch_raising slack_error)
           g0 PNone PNone
           {| statusCode := 500; body := failure_body slack_error |}).
  vm_compute. reflexivity.
Defined.

(** X7.  Whatever the text to summarize, the request that
    [invoke_bedrock_model] builds is serializable, and the body it sends is
    made of printable ASCII only: the Japanese prompt and the text travel as
    escapes. *)
Theorem request_is_printable_ascii :
  forall lib text,
    json_dumps (request_for (prompt_for lib text))
    = Ok (request_body lib text)
    /\ forallb printable_ascii (request_body lib text) = true.
Proof.
  intros lib text. split; [reflexivity|].
  unfold request_body, request_for.
  set (p := prompt_for lib text).
  unfold json_dumps. cbn -[encode_basestring_ascii u app join].
  cbn [join]. rewrite !forallb_app.
  rewrite (encode_printable p). reflexivity.
Qed.

(** ** Errors of the Slack calls *)

(** X8.  When the history call raises a [SlackApiError] whose [response] is
    a dict without an [error] entry, logging the error raises [KeyError]:
    the fetch step raises that [KeyError] in place of the Slack error, and
    the handler's body reports ['error'], not the description of the Slack
    error. *)
Theorem slack_error_without_code_is_masked :
  forall lib w g event context e d,
    conversations_history w (slack_client g) INPUT_CHANNEL_ID 1 true
    = Raise e ->
    is_SlackApiError e = true ->
    exc_response e = PDict d ->
    dict_lookup d (u "error") = None ->
    returned (get_latest_message_from_slack lib w g INPUT_CHANNEL_ID)
    = Raise (mk_exc KeyError (u "'error'") PNone)
    /\ returned (lambda_handler lib w g event context)
       = Ok {| statusCode := 500;
               body := [DQUOTE] ++ u "An error occurred: 'error'"
                         ++ [DQUOTE] |}.
Proof.
  intros lib w g event context e d Hcall Hslack Hresp Hd.
  assert (Herr : subscript_str (exc_response e) (u "error")
                 = Raise (mk_exc KeyError (u "'error'") PNone)).
  { rewrite Hresp. unfold subscript_str. now rewrite Hd. }
  pose proof (fetch_call_raises_masked lib w g INPUT_CHANNEL_ID _ _ eq_refl
                Hcall Hslack Herr) as Hf.
  split; [now rewrite Hf|].
  fold (fetch_step lib w g) in Hf.
  now rewrite (handler_catches lib w g _ _ event context
                 (body_fetch_raises lib w g _ _ Hf) eq_refl eq_refl).
Qed.

Lemma slack_error_without_code_is_masked_witness :
  returned (get_latest_message_from_slack lib0
              (world_fetch_raising slack_error_without_code) g0
              INPUT_CHANNEL_ID)
  = Raise (mk_exc KeyError (u "'error'") PNone)
  /\ returned (lambda_handler lib0
                 (world_fetch_raising slack_error_without_code) g0
                 PNone PNone)
     = Ok {| statusCode := 500;
             body := [DQUOTE] ++ u "An error occurred: 'error'"
                       ++ [DQUOTE] |}.
Proof.
  apply (slack_error_without_code_is_masked lib0
           (world_fetch_raising slack_error_without_code) g0 PNone PNone
           slack_error_without_code
           [(u "status", PInt 502); (u "body", PStr (u "<html>"))]);
    reflexivity.
Defined.



(** X10.  When the message was fetched and summarized and the post call
    raises an error that derives from [Exception] and whose description the
    log can take (not a [SlackApiError], or one whose response gives an
    [error] that the log can take), the handler returns the failure outcome
    for that error; by then the model has been called, and the post was
    tried once. *)
Theorem post_error_gives_failure_outcome :
  forall lib w g event context message_text summary e,
    returned (get_latest_message_from_slack lib w g INPUT_CHANNEL_ID)
    = Ok message_text ->
    truthy message_text = true ->
    returned (invoke_bedrock_model lib w g message_text) = Ok summary ->
    chat_postMessage w (slack_client g) OUTPUT_CHANNEL_ID
      (u "【AIによる要約】" ++ [LF] ++ u ">>> " ++ py_str lib summary)
    = Raise e ->
    logs_slack_error lib (u "Slack API Error (post): ") e ->
    is_Exception e = true ->
    forallb encodable (exc_str e) = true ->
    let run := lambda_handler lib w g event context in
    returned run = Ok {| statusCode := 500; body := failure_body e |}
    /\ count is_inference_call (trace run) = 1
    /\ count is_post_call (trace run) = 1.
Proof.
  intros lib w g event context m s e Hfetch Hm Hsum Hcall Hsame He Henc run.
  subst run.
  apply returned_step in Hfetch as (t1 & Hf).
  apply returned_step in Hsum as (t2 & Hs).
  pose proof (post_call_raises_same lib w g OUTPUT_CHANNEL_ID _ _ eq_refl
                Hcall Hsame) as Hpost.
  apply returned_step in Hpost as (t3 & Hp).
  fold (fetch_step lib w g) in Hf. fold (summarize_step lib w g m) in Hs.
  assert (Hp' : post_step lib w g s = (t3, Raise e))
    by (unfold post_step, result_text_for, PREFIX; exact Hp).
  clear Hp. rename Hp' into Hp.
  split; [|split].
  - now rewrite (handler_catches lib w g _ _ event context
                   (body_post_raises lib w g _ _ _ _ _ _ Hf Hm Hs Hp)
                   He Henc).
  - rewrite (count_remote_calls _ _ print_not_inference).
    rewrite (calls_when_summarized lib w g event context _ _ _ _ Hf Hm Hs).
    destruct (summarize_step_calls lib w g _ _ _ Hs) as (rest & -> & Hrest).
    destruct Hrest as [->|(h & ->)]; reflexivity.
  - rewrite (count_remote_calls _ _ print_not_post).
    rewrite (calls_when_summarized lib w g event context _ _ _ _ Hf Hm Hs).
    destruct (summarize_step_calls lib w g _ _ _ Hs) as (rest & -> & Hrest).
    destruct Hrest as [->|(h & ->)]; reflexivity.
Qed.

Lemma post_error_gives_failure_outcome_witness :
  let run := lambda_handler lib0 (world_post_raising slack_error) g0
               PNone PNone in
  returned run = Ok {| statusCode := 500; body := failure_body slack_error |}
  /\ count is_inference_call (trace run) = 1
  /\ count is_post_call (trace run) = 1.
Proof.
  apply (post_error_gives_failure_outcome lib0
           (world_post_raising slack_error) g0 PNone PNone
           (PStr (u "Hello")) (PStr (u "- Shipped v2")) slack_error);
    try (vm_compute; reflexivity).
  right. exists (PStr (u "channel_not_found")). split; reflexivity.
Defined.

(** ** Edge cases of the fetched message and of the model's answer *)

(** X11.  When the latest message is a dict without a [text] entry, the
    fetch step raises [KeyError]: the handler returns the failure outcome
    whose body reports ['text'], and the fetch is its only remote call. *)
Theorem message_without_text_gives_failure_outcome :
  forall lib w g event context response messages d,
    conversations_history w (slack_client g) INPUT_CHANNEL_ID 1 true
    = Ok response ->
    subscript_str response (u "messages") = Ok messages ->
    subscript_int messages 0 = Ok (PDict d) ->
    dict_lookup d (u "text") = None ->
    let run := lambda_handler lib w g event context in
    returned run
    = Ok {| statusCode := 500;
            body := [DQUOTE] ++ u "An error occurred: 'text'" ++ [DQUOTE] |}
    /\ remote_calls (trace run) = [fetch_call g INPUT_CHANNEL_ID].
Proof.
  intros lib w g event context response messages d
    Hcall Hmsgs Hfirst Hd run.
  subst run.
  assert (Hf : fetch_step lib w g
               = ([EvPrint (u "Fetching message from channel: "
                              ++ INPUT_CHANNEL_ID);
                   fetch_call g INPUT_CHANNEL_ID],
                  Raise (mk_exc KeyError (u "'text'") PNone))).
  { unfold fetch_step, get_latest_message_from_slack, fetch_call.
    rewrite (print_ok (u "Fetching message from channel: "
                         ++ INPUT_CHANNEL_ID)) by reflexivity.
    unfold bind, try_except, emit, lift, raise, ret.
    cbn. rewrite Hcall. cbn. rewrite Hmsgs. cbn.
    rewrite (subscript_int_truthy _ _ _ Hfirst). cbn. rewrite Hfirst. cbn.
    unfold subscript_str. rewrite Hd. reflexivity. }
  split.
  - now rewrite (handler_catches lib w g _ _ event context
                   (body_fetch_raises lib w g _ _ Hf) eq_refl eq_refl).
  - exact (calls_when_fetch_raises lib w g event context _ _ Hf).
Qed.

Lemma message_without_text_gives_failure_outcome_witness :
  let run := lambda_handler lib0 world_without_text g0 PNone PNone in
  returned run
  = Ok {| statusCode := 500;
          body := [DQUOTE] ++ u "An error occurred: 'text'" ++ [DQUOTE] |}
  /\ remote_calls (trace run) = [fetch_call g0 INPUT_CHANNEL_ID].
Proof.
  apply (message_without_text_gives_failure_outcome lib0 world_without_text
           g0 PNone PNone
           (history_of [message_without_text])
           (PList [message_without_text])
           [(u "type", PStr (u "message"));
            (u "subtype", PStr (u "huddle_thread"))]);
    reflexivity.
Defined.

(** X12.  When the latest message has a text that is false ([None],
    [False], [0], an empty string, list or dict), the handler takes the
    no-op branch: status 200, the no-op body, and no remote call after the
    fetch. *)
Theorem false_text_is_a_no_op :
  forall lib w g event context response messages first text,
    conversations_history w (slack_client g) INPUT_CHANNEL_ID 1 true
    = Ok response ->
    subscript_str response (u "messages") = Ok messages ->
    subscript_int messages 0 = Ok first ->
    subscript_str first (u "text") = Ok text ->
    truthy text = false ->
    let run := lambda_handler lib w g event context in
    returned run = Ok {| statusCode := 200; body := NO_OP_BODY |}
    /\ remote_calls (trace run) = [fetch_call g INPUT_CHANNEL_ID].
Proof.
  intros lib w g event context response messages first text
    Hcall Hmsgs Hfirst Htext Hfalse run.
  subst run.
  pose proof (fetch_returns_text lib w g INPUT_CHANNEL_ID _ _ _ _ eq_refl
                Hcall Hmsgs Hfirst Htext
                (false_value_is_loggable lib text Hfalse))
    as Hf.
  fold (fetch_step lib w g) in Hf.
  split.
  - now rewrite (handler_returns lib w g _ _ event context
                   (body_no_message lib w g _ _ Hf Hfalse)).
  - exact (calls_when_no_message lib w g event context _ _ Hf Hfalse).
Qed.

Lemma false_text_is_a_no_op_witness :
  let run := lambda_handler lib0
               {| conversations_history :=
                    fun _ _ _ _ =>
                      Ok (history_of [PDict [(u "text", PNone)]]);
                  chat_postMessage := fun _ _ _ => Ok post_ok;
                  invoke_model := fun _ _ _ _ _ => Ok bedrock_response;
                  stream_read := fun _ => Ok summary_payload |}
               g0 PNone PNone in
  returned run = Ok {| statusCode := 200; body := NO_OP_BODY |}
  /\ remote_calls (trace run) = [fetch_call g0 INPUT_CHANNEL_ID].
Proof.
  apply (false_text_is_a_no_op lib0 _ g0 PNone PNone
           (history_of [PDict [(u "text", PNone)]])
           (PList [PDict [(u "text", PNone)]])
           (PDict [(u "text", PNone)]) PNone);
    reflexivity.
Defined.

(** X13.  When the first segment of the model's answer is an object
    without a [text] entry, [invoke_bedrock_model] does not raise: it
    returns [None], and the handler posts the prefix followed by the word
    [None]. *)
Theorem segment_without_text_posts_none :
  forall lib w g event context message_text response h raw d segment rest,
    returned (get_latest_message_from_slack lib w g INPUT_CHANNEL_ID)
    = Ok message_text ->
    truthy message_text = true ->
    invoke_model w (bedrock_runtime g) (request_body lib message_text)
      MODEL_ID (u "application/json") (u "application/json") = Ok response ->
    py_get response (u "body") = Ok (PStreamingBody h) ->
    stream_read w h = Ok raw ->
    json_loads lib raw = Ok (PDict d) ->
    dict_lookup d (u "content") = Some (PList (PDict segment :: rest)) ->
    dict_lookup segment (u "text") = None ->
    returned (invoke_bedrock_model lib w g message_text) = Ok PNone
    /\ filter is_post_call (trace (lambda_handler lib w g event context))
       = [EvChatPostMessage (slack_client g) OUTPUT_CHANNEL_ID
            (u "【AIによる要約】" ++ [LF] ++ u ">>> None")].
Proof.
  intros lib w g event context m response h raw d segment rest
    Hfetch Hm Hcall Hbody Hread Hloads Hcontent Htext.
  assert (Hsum : returned (invoke_bedrock_model lib w g m) = Ok PNone).
  { rewrite (inference_after_read lib w g _ _ _ _ Hcall Hbody Hread).
    unfold extract_summary.
    rewrite Hloads. unfold bind_result, py_get. rewrite Hcontent.
    unfold subscript_int, seq_index. cbn. rewrite Htext.
    now rewrite stdout_accepts by reflexivity. }
  split; [exact Hsum|].
  apply returned_step in Hfetch as (t1 & Hf).
  apply returned_step in Hsum as (t2 & Hs).
  fold (fetch_step lib w g) in Hf. fold (summarize_step lib w g m) in Hs.
  rewrite <- (filter_remote_calls _ _ print_not_post).
  rewrite (calls_when_summarized lib w g event context _ _ _ _ Hf Hm Hs).
  destruct (summarize_step_calls lib w g _ _ _ Hs) as (rest' & -> & Hrest).
  destruct Hrest as [->|(h' & ->)]; reflexivity.
Qed.

Lemma segment_without_text_posts_none_witness :
  returned (invoke_bedrock_model lib1 (world_reading tool_use_payload) g0
              (PStr (u "Hello")))
  = Ok PNone
  /\ filter is_post_call
       (trace (lambda_handler lib1 (world_reading tool_use_payload) g0
                 PNone PNone))
     = [EvChatPostMessage (slack_client g0) OUTPUT_CHANNEL_ID
          (u "【AIによる要約】" ++ [LF] ++ u ">>> None")].
Proof.
  apply (segment_without_text_posts_none lib1
           (world_reading tool_use_payload) g0 PNone PNone
           (PStr (u "Hello")) bedrock_response 0%N tool_use_payload
           [(u "content", PList [PDict [(u "type", PStr (u "tool_use"))]])]
           [(u "type", PStr (u "tool_use"))] []);
    vm_compute; reflexivity.
Defined.



(** ** The process: the token and the clients *)

Lemma module_import_with_clients lib environ tok runtime :
  environ_lookup environ (u "SLACK_BOT_TOKEN") = Some tok ->
  boto3_client lib (u "bedrock-runtime") (u "us-east-1") = Ok runtime ->
  module_import lib environ
  = ([EvEnviron (u "SLACK_BOT_TOKEN")],
     Ok {| slack_bot_token := tok;
           slack_client := new_web_client lib tok;
           bedrock_runtime := runtime |}).
Proof.
  intros Htok Hruntime. unfold module_import.
  rewrite (module_init_with_token _ _ Htok).
  unfold module_clients, bind, lift, ret. rewrite Hruntime. reflexivity.
Qed.

Lemma module_import_without_clients lib environ tok e :
  environ_lookup environ (u "SLACK_BOT_TOKEN") = Some tok ->
  boto3_client lib (u "bedrock-runtime") (u "us-east-1") = Raise e ->
  module_import lib environ = ([EvEnviron (u "SLACK_BOT_TOKEN")], Raise e).
Proof.
  intros Htok Hruntime. unfold module_import.
  rewrite (module_init_with_token _ _ Htok).
  unfold module_clients, bind, lift, ret. rewrite Hruntime. reflexivity.
Qed.

Lemma serve_event lib g worlds ev :
  In ev (fst (serve lib g worlds)) ->
  exists w, In w worlds /\ In ev (trace (lambda_handler lib w g PNone PNone)).
Proof.
  induction worlds as [|w rest IH]; [intros []|]. simpl.
  destruct (lambda_handler lib w g PNone PNone) as [t r] eqn:Hrun.
  destruct (serve lib g rest) as [t' rs]. simpl in *.
  intros Hin. apply in_app_or in Hin as [Hin|Hin].
  - exists w. split; [now left|]. now rewrite Hrun.
  - destruct (IH Hin) as (w' & Hw' & Hev). exists w'. split; [now right|].
    exact Hev.
Qed.

Lemma serve_results lib g worlds :
  List.length (snd (serve lib g worlds)) = List.length worlds.
Proof.
  induction worlds as [|w rest IH]; [reflexivity|]. simpl.
  destruct (lambda_handler lib w g PNone PNone) as [t r].
  destruct (serve lib g rest) as [t' rs]. simpl in *. now rewrite IH.
Qed.

(** X15.  With the token in the environment, the import goes on to build
    the two clients.  When [boto3.client] raises, the import raises that
    exception and the process ends there, with no invocation.  When it
    returns a client, every event gets its invocation; each Slack call of
    the process goes through the client that [WebClient] built at start-up
    from the token as read, and each model call goes through the client
    that [boto3.client] returned for the [bedrock-runtime] service of
    [us-east-1], with the fixed model identifier. *)
Theorem clients_are_built_once_at_startup :
  forall lib environ worlds tok,
    environ_lookup environ (u "SLACK_BOT_TOKEN") = Some tok ->
    (forall e,
        boto3_client lib (u "bedrock-runtime") (u "us-east-1") = Raise e ->
        process lib environ worlds
        = ([EvEnviron (u "SLACK_BOT_TOKEN")], Raise e))
    /\ (forall runtime,
          boto3_client lib (u "bedrock-runtime") (u "us-east-1")
          = Ok runtime ->
          exists t results,
            process lib environ worlds
            = (EvEnviron (u "SLACK_BOT_TOKEN") :: t, Ok results)
            /\ List.length results = List.length worlds
            /\ (forall c channel limit inclusive,
                  In (EvConversationsHistory c channel limit inclusive) t ->
                  c = new_web_client lib tok)
            /\ (forall c channel text,
                  In (EvChatPostMessage c channel text) t ->
                  c = new_web_client lib tok)
            /\ (forall c request modelId accept contentType,
                  In (EvInvokeModel c request modelId accept contentType) t ->
                  c = runtime
                  /\ modelId
                     = u "anthropic.claude-3-7-sonnet-20250219-v1:0")).
Proof.
  intros lib environ worlds tok Htok. split.
  - intros e Hruntime. unfold process.
    now rewrite (module_import_without_clients lib environ tok e
                   Htok Hruntime).
  - intros runtime Hruntime.
    set (g := {| slack_bot_token := tok;
                 slack_client := new_web_client lib tok;
                 bedrock_runtime := runtime |}).
    unfold process.
    rewrite (module_import_with_clients lib environ tok runtime
               Htok Hruntime).
    fold g.
    pose proof (serve_results lib g worlds) as Hlen.
    pose proof (serve_event lib g worlds) as Hev.
    destruct (serve lib g worlds) as [t rs]. simpl in Hlen, Hev.
    exists t, rs. split; [reflexivity|split; [exact Hlen|]].
    assert (Hcall : forall ev,
               In ev t -> is_print ev = false ->
               exists w,
                 In ev (remote_calls
                          (trace (lambda_handler lib w g PNone PNone)))).
    { intros ev Hin Hp. destruct (Hev ev Hin) as (w & _ & Hw).
      exists w. unfold remote_calls. apply filter_In. split; [exact Hw|].
      now rewrite Hp. }
    clear Hev Hlen Htok Hruntime.
    split; [|split].
    + intros c channel limit inclusive Hin.
      destruct (Hcall _ Hin eq_refl) as (w & Hw).
      destruct (remote_call_of_a_run _ _ _ _ _ _ Hw)
        as [H|[(m & H)|[(h & H)|(s & H)]]];
        unfold fetch_call, inference_call, post_call in H;
        try discriminate H.
      injection H as Hc _. rewrite Hc. reflexivity.
    + intros c channel text Hin.
      destruct (Hcall _ Hin eq_refl) as (w & Hw).
      destruct (remote_call_of_a_run _ _ _ _ _ _ Hw)
        as [H|[(m & H)|[(h & H)|(s & H)]]];
        unfold fetch_call, inference_call, post_call in H;
        try discriminate H.
      injection H as Hc _ _. rewrite Hc. reflexivity.
    + intros c request modelId accept contentType Hin.
      destruct (Hcall _ Hin eq_refl) as (w & Hw).
      destruct (remote_call_of_a_run _ _ _ _ _ _ Hw)
        as [H|[(m & H)|[(h & H)|(s & H)]]];
        unfold fetch_call, inference_call, post_call in H;
        try discriminate H.
      injection H as Hc _ Hm _ _. rewrite Hc, Hm.
      split; reflexivity.
Qed.

Lemma clients_are_built_once_at_startup_witness :
  process lib_old_boto3 env0 [world_with (u "Hello"); world_empty]
  = ([EvEnviron (u "SLACK_BOT_TOKEN")], Raise unknown_service)
  /\ (exists t results,
        process lib0 env_padded [world_with (u "Hello"); world_empty]
        = (EvEnviron (u "SLACK_BOT_TOKEN") :: t, Ok results)
        /\ List.length results = 2
        /\ (forall c channel text,
              In (EvChatPostMessage c channel text) t ->
              token c = u "xoxb-test")).
Proof.
  split.
  - apply (proj1 (clients_are_built_once_at_startup lib_old_boto3 env0
                    [world_with (u "Hello"); world_empty] (u "xoxb-test")
                    eq_refl)).
    reflexivity.
  - destruct (proj2 (clients_are_built_once_at_startup lib0 env_padded
                       [world_with (u "Hello"); world_empty]
                       (u " xoxb-test ") eq_refl)
                {| service_name := u "bedrock-runtime";
                   region_name := u "us-east-1" |} eq_refl)
      as (t & results & Hprocess & Hlen & _ & Hposts & _).
    exists t, results. split; [exact Hprocess|split; [exact Hlen|]].
    intros c channel text Hin.
    rewrite (Hposts c channel text Hin). reflexivity.
Defined.

(** X16.  When the answer of the model call is a dict without a [body]
    entry, [response.get('body')] is [None] and reading it raises
    [AttributeError]: [invoke_bedrock_model] raises it, nothing is read, and
    the handler returns the failure outcome without posting. *)
Theorem answer_without_body_gives_failure_outcome :
  forall lib w g event context message_text d,
    returned (get_latest_message_from_slack lib w g INPUT_CHANNEL_ID)
    = Ok message_text ->
    truthy message_text = true ->
    invoke_model w (bedrock_runtime g) (request_body lib message_text)
      MODEL_ID (u "application/json") (u "application/json") = Ok (PDict d) ->
    dict_lookup d (u "body") = None ->
    let run := lambda_handler lib w g event context in
    returned (invoke_bedrock_model lib w g message_text)
    = Raise (mk_exc AttributeError
               (u "'NoneType' object has no attribute 'read'") PNone)
    /\ returned run
       = Ok {| statusCode := 500;
               body := [DQUOTE]
                         ++ u "An error occurred: 'NoneType' object has no attribute 'read'"
                         ++ [DQUOTE] |}
    /\ remote_calls (trace run)
       = [fetch_call g INPUT_CHANNEL_ID;
          inference_call g (request_body lib message_text)].
Proof.
  intros lib w g event context m d Hfetch Hm Hcall Hd run. subst run.
  set (err := mk_exc AttributeError
                (u "'NoneType' object has no attribute 'read'") PNone).
  assert (Hs : summarize_step lib w g m
               = ([EvPrint (u "Invoking Bedrock model (Claude 3.7 Sonnet)...");
                   inference_call g (request_body lib m);
                   EvPrint (u "Bedrock invocation error: " ++ exc_str err)],
                  Raise err)).
  { unfold summarize_step, invoke_bedrock_model, inference_call.
    rewrite json_dumps_request.
    rewrite (print_ok (u "Invoking Bedrock model (Claude 3.7 Sonnet)..."))
      by reflexivity.
    unfold py_read, bind, try_except, emit, lift, raise, ret.
    cbn. rewrite Hcall. cbn. unfold py_get. rewrite Hd. cbn.
    rewrite print_ok by reflexivity.
    reflexivity. }
  apply returned_step in Hfetch as (t1 & Hf).
  fold (fetch_step lib w g) in Hf.
  split; [|split].
  - unfold summarize_step in Hs. now rewrite Hs.
  - now rewrite (handler_catches lib w g _ _ event context
                   (body_summarize_raises lib w g _ _ _ _ Hf Hm Hs)
                   eq_refl eq_refl).
  - rewrite (calls_when_summarize_raises lib w g event context _ _ _ _
               Hf Hm Hs).
    reflexivity.
Qed.

Lemma answer_without_body_gives_failure_outcome_witness :
  let run := lambda_handler lib0 world_without_body g0 PNone PNone in
  returned (invoke_bedrock_model lib0 world_without_body g0 (PStr (u "Hello")))
  = Raise (mk_exc AttributeError
             (u "'NoneType' object has no attribute 'read'") PNone)
  /\ returned run
     = Ok {| statusCode := 500;
             body := [DQUOTE]
                       ++ u "An error occurred: 'NoneType' object has no attribute 'read'"
                       ++ [DQUOTE] |}
  /\ remote_calls (trace run)
     = [fetch_call g0 INPUT_CHANNEL_ID;
        inference_call g0 (request_body lib0 (PStr (u "Hello")))].
Proof.
  apply (answer_without_body_gives_failure_outcome lib0 world_without_body
           g0 PNone PNone (PStr (u "Hello"))
           [(u "contentType", PStr (u "application/json"))]);
    reflexivity.
Defined.
